(** * libnl (Python port): generic netlink family objects and the
      byte-buffer structures of [libnl/misc.py]

    A shallow embedding of [src/libnl/genl/family.py] and
    [src/libnl/misc.py].  Python objects that the code mutates in place
    (a [genl_family] instance, a [bytearray]) are threaded explicitly:
    an operation takes the contents before and returns the contents
    after, together with what the call returned or raised. *)

From Stdlib Require Import ZArith String Ascii Lia.
From stdpp Require Import base list gmap strings pretty.

Local Open Scope Z_scope.

(** ** Exceptions and outcomes *)

(** The exception classes the two modules can raise, each with the
    message text of the [raise] statement (or of the interpreter). *)
Inductive exn : Type :=
  | IndexError (msg : string)
  | TypeError (msg : string)
  | ValueError (msg : string)
  | KeyError
  | RuntimeError (msg : string)
  | NotImplementedError.

(** What a call produced: a returned value or a raised exception. *)
Inductive result (A : Type) : Type :=
  | Return (a : A)
  | Raise (e : exn).
Arguments Return {A} a.
Arguments Raise {A} e.

(** A call on a mutable buffer: the buffer contents are passed in and
    the contents after the call are passed out, next to the outcome. *)
Definition Buf (A : Type) : Type := list Z -> list Z * result A.

Definition ret {A} (a : A) : Buf A := fun ba => (ba, Return a).
Definition throw {A} (e : exn) : Buf A := fun ba => (ba, Raise e).
Definition bind {A B} (m : Buf A) (k : A -> Buf B) : Buf B :=
  fun ba =>
    match m ba with
    | (ba', Return a) => k a ba'
    | (ba', Raise e) => (ba', Raise e)
    end.

Notation "m >>- k" := (bind m (fun _ => k))
  (at level 100, k at level 200, right associativity).

(** ** Python built-ins used by the code *)

Module Py.

Definition len {A} (l : list A) : Z := Z.of_nat (length l).

(** [x or d] where [x] is an int or [None]: both [None] and [0] are
    falsy. *)
Definition or_ (x : option Z) (d : Z) : Z :=
  match x with
  | None => d
  | Some v => if v =? 0 then d else v
  end.

(** Bound of a slice against a sequence of length [n]: a negative
    bound counts from the end, and the result is clamped to [0..n]. *)
Definition clamp (n i : Z) : Z :=
  if i <? 0 then Z.max (i + n) 0 else Z.min i n.

(** [l[a:b]] for integer bounds. *)
Definition getslice {A} (l : list A) (a b : Z) : list A :=
  let lo := clamp (len l) a in
  let hi := clamp (len l) b in
  take (Z.to_nat (hi - lo)) (drop (Z.to_nat lo) l).

(** [l[slice(a, b)]] where a bound may be [None]. *)
Definition getslice_opt {A} (l : list A) (a b : option Z) : list A :=
  getslice l (default 0 a) (default (len l) b).

(** [l[i]] for an integer index: [None] stands for IndexError. *)
Definition getitem {A} (l : list A) (i : Z) : option A :=
  let j := if i <? 0 then i + len l else i in
  if (0 <=? j) && (j <? len l) then l !! Z.to_nat j else None.

(** The list after [l[a:b] = v]: the range [lo, max lo hi) is
    replaced by [v], whatever the length of [v]. *)
Definition setslice {A} (l : list A) (a b : Z) (v : list A) : list A :=
  let lo := clamp (len l) a in
  let hi := Z.max lo (clamp (len l) b) in
  take (Z.to_nat lo) l ++ v ++ drop (Z.to_nat hi) l.

Definition is_byte (z : Z) : bool := (0 <=? z) && (z <? 256).

(** [ba[a:b] = v] on a bytearray: the new items are converted before
    the buffer is touched, so a value outside [range(256)] raises and
    leaves the buffer as it was. *)
Definition bytearray_setslice (a b : Z) (v : list Z) : Buf unit :=
  fun ba =>
    if forallb is_byte v then (setslice ba a b v, Return tt)
    else (ba, Raise (ValueError "byte must be in range(0, 256)")).

(** [ba[i] = v] on a bytearray, for an integer index. *)
Definition bytearray_setitem (i : Z) (v : Z) : Buf unit :=
  fun ba =>
    if negb (is_byte v)
    then (ba, Raise (ValueError "byte must be in range(0, 256)"))
    else
      let j := if i <? 0 then i + len ba else i in
      if (0 <=? j) && (j <? len ba)
      then (<[Z.to_nat j := v]> ba, Return tt)
      else (ba, Raise (IndexError "bytearray index out of range")).

Fixpoint sum (l : list Z) : Z :=
  match l with
  | [] => 0
  | x :: l' => x + sum l'
  end.

(** The objects whose truth value the code tests. *)
Inductive object : Type :=
  | ByteArray (content : list Z)
  | Generator (yields : list Z).

(** Truth value: a bytearray is truthy iff it is not empty; a
    generator object defines neither [__bool__] nor [__len__], so it
    is truthy whatever it would yield. *)
Definition truth (o : object) : bool :=
  match o with
  | ByteArray [] => false
  | ByteArray (_ :: _) => true
  | Generator _ => true
  end.

(** [format(d, 'x')] for a hexadecimal digit [d]. *)
Definition hex_digit (d : Z) : ascii :=
  match d with
  | 0 => "0" | 1 => "1" | 2 => "2" | 3 => "3" | 4 => "4" | 5 => "5"
  | 6 => "6" | 7 => "7" | 8 => "8" | 9 => "9" | 10 => "a" | 11 => "b"
  | 12 => "c" | 13 => "d" | 14 => "e" | _ => "f"
  end%char.

(** [format(c, '02x')] for a byte [c]: two lower-case hexadecimal
    digits. *)
Definition format_02x (c : Z) : string :=
  String (hex_digit (c / 16)) (String (hex_digit (c mod 16)) EmptyString).

(** [sep.join(items)] *)
Fixpoint join (sep : string) (items : list string) : string :=
  match items with
  | [] => EmptyString
  | item :: rest =>
      match rest with
      | [] => item
      | _ :: _ => String.append item (String.append sep (join sep rest))
      end
  end.

(** [' '.join(format(c, '02x') for c in ba)] *)
Definition hexdump (ba : list Z) : string :=
  join " " (format_02x <$> ba).

(** [str(n)] for an int [n]. *)
Definition str_int (n : Z) : string := pretty n.

End Py.

(** ** [libnl/genl/family.py] *)

Module Family.

Definition FAMILY_ATTR_ID : Z := 0x01.
Definition FAMILY_ATTR_NAME : Z := 0x02.
Definition FAMILY_ATTR_VERSION : Z := 0x04.
Definition FAMILY_ATTR_HDRSIZE : Z := 0x08.
Definition FAMILY_ATTR_MAXATTR : Z := 0x10.
Definition FAMILY_ATTR_OPS : Z := 0x20.

(** What [genl_family_add_grp] passes as [id_]: the source writes
    [id_=id], and [id] is Python's built-in function, not the
    parameter [id_]. *)
Inductive grp_id_value : Type :=
  | GrpIdInt (z : Z)
  | GrpIdBuiltinFunction.

(** Modelled from the spec: the class [genl_family_grp] of
    [libnl.netlink_private.types] is not part of the sources; a
    FamilyGroup is an id and a name. *)
Record genl_family_grp : Type := {
  grp_id : grp_id_value;
  grp_name : string
}.

(** Modelled from the spec: the class [genl_family] of
    [libnl.netlink_private.types] is not part of the sources; a
    FamilyDescriptor carries the presence mask [ce_mask] and the
    fields id, name, version, header size, max attr and groups. *)
Record genl_family : Type := {
  ce_mask : Z;
  gf_id : Z;
  gf_name : string;
  gf_version : Z;
  gf_hdrsize : Z;
  gf_maxattr : Z;
  gf_mc_grps : list genl_family_grp
}.

(** Modelled from the spec: [nl_object_alloc] and the constructor of
    [genl_family] are not part of the sources; the allocator hands
    out zero-initialised storage, in particular [ce_mask = 0]. *)
Definition genl_family_alloc : genl_family :=
  {| ce_mask := 0; gf_id := 0; gf_name := ""; gf_version := 0;
     gf_hdrsize := 0; gf_maxattr := 0; gf_mc_grps := [] |}.

Section WithSentinel.

(** [GENL_ID_GENERATE] is imported from
    [libnl.linux_private.genetlink], which is not part of the
    sources: any integer. *)
Variable GENL_ID_GENERATE : Z.

(** [int(family.gf_id if family.ce_mask & FAMILY_ATTR_ID else
    GENL_ID_GENERATE)]: an int is truthy iff it is not zero, and
    [int] is the identity on ints. *)
Definition genl_family_get_id (family : genl_family) : Z :=
  if Z.land (ce_mask family) FAMILY_ATTR_ID =? 0
  then GENL_ID_GENERATE
  else gf_id family.

End WithSentinel.

(** Attribute assignments on a descriptor: every other attribute is
    kept. *)
Definition assign_ce_mask (mask : Z) (family : genl_family)
  : genl_family :=
  {| ce_mask := mask; gf_id := gf_id family; gf_name := gf_name family;
     gf_version := gf_version family; gf_hdrsize := gf_hdrsize family;
     gf_maxattr := gf_maxattr family; gf_mc_grps := gf_mc_grps family |}.

Definition assign_gf_id (id_ : Z) (family : genl_family) : genl_family :=
  {| ce_mask := ce_mask family; gf_id := id_; gf_name := gf_name family;
     gf_version := gf_version family; gf_hdrsize := gf_hdrsize family;
     gf_maxattr := gf_maxattr family; gf_mc_grps := gf_mc_grps family |}.

Definition assign_gf_name (name : string) (family : genl_family)
  : genl_family :=
  {| ce_mask := ce_mask family; gf_id := gf_id family; gf_name := name;
     gf_version := gf_version family; gf_hdrsize := gf_hdrsize family;
     gf_maxattr := gf_maxattr family; gf_mc_grps := gf_mc_grps family |}.

(** [family.gf_id = id_; family.ce_mask |= FAMILY_ATTR_ID] *)
Definition genl_family_set_id (family : genl_family) (id_ : Z)
  : genl_family :=
  let family := assign_gf_id id_ family in
  assign_ce_mask (Z.lor (ce_mask family) FAMILY_ATTR_ID) family.

(** [family.gf_name = name; family.ce_mask |= FAMILY_ATTR_NAME] *)
Definition genl_family_set_name (family : genl_family) (name : string)
  : genl_family :=
  let family := assign_gf_name name family in
  assign_ce_mask (Z.lor (ce_mask family) FAMILY_ATTR_NAME) family.

(** [grp = genl_family_grp(id_=id, name=name)] followed by
    [raise NotImplementedError]: the group is built (with the
    built-in [id] in its id field) and dropped, the descriptor is not
    touched, and nothing is returned. *)
Definition genl_family_add_grp (family : genl_family) (id_ : Z)
    (name : string) : genl_family * result Z :=
  let grp := {| grp_id := GrpIdBuiltinFunction; grp_name := name |} in
  (family, Raise NotImplementedError).

End Family.

(** ** [ctypes] integers as bytes *)

Module Ctypes.

(** The [width] low bytes of [v], least significant first: a ctypes
    integer keeps the low bits of the value it is built from, without
    an overflow check. *)
Fixpoint le_bytes (width : nat) (v : Z) : list Z :=
  match width with
  | O => []
  | S w => v mod 256 :: le_bytes w (v / 256)
  end.

Fixpoint le_value (bs : list Z) : Z :=
  match bs with
  | [] => 0
  | b :: bs' => b + 256 * le_value bs'
  end.

Section Platform.

(** Byte order of the platform. *)
Variable big_endian : bool.

(** The bytes of a ctypes integer of [width] bytes, in memory
    order. *)
Definition native_bytes (width : nat) (v : Z) : list Z :=
  if big_endian then rev (le_bytes width v) else le_bytes width v.

(** The unsigned value held by bytes in memory order. *)
Definition native_value (bs : list Z) : Z :=
  le_value (if big_endian then rev bs else bs).

(** [bytearray(ctypes.c_int32(value))] *)
Definition c_int32_bytes (value : Z) : list Z := native_bytes 4 value.

(** [bytes(ctypes.c_uint64(value))] *)
Definition c_uint64_bytes (value : Z) : list Z := native_bytes 8 value.

(** [ctypes.c_uint32.from_buffer(buf).value]: the first four bytes
    of the buffer, which must hold at least four. *)
Definition c_uint32_from_buffer (buf : list Z) : result Z :=
  if Py.len buf <? 4
  then Raise (ValueError "Buffer size too small")
  else Return (native_value (take 4 buf)).

End Platform.

End Ctypes.

(** ** [libnl/misc.py] *)

Module Misc.

(** [ctypes.sizeof(ctypes.c_uint32)] *)
Definition SIZEOF_U32 : Z := 4.

(** *** [class StructNoPointers]

    An instance is its [bytearray]; [SIGNATURE] is an attribute of the
    (sub)class. *)
Module StructNoPointers.

Fixpoint lstrip0 (l : list Z) : list Z :=
  match l with
  | 0 :: l' => lstrip0 l'
  | _ => l
  end.

(** [bytearray(ba).strip(b'\0')] *)
Definition strip0 (ba : list Z) : list Z :=
  rev (lstrip0 (rev (lstrip0 ba))).

Definition __bool__ (ba : list Z) : bool :=
  negb (negb (Py.truth (Py.ByteArray (strip0 ba)))).

(** The bounds of the slice [_get_slicers] returns. *)
Definition _get_slicers (SIGNATURE : list Z) (index : Z)
  : result (Z * Z) :=
  if index =? 0 then
    match Py.getitem SIGNATURE 0 with
    | Some w => Return (0, w)
    | None => Raise (IndexError "tuple index out of range")
    end
  else if index >=? Py.len SIGNATURE then
    Raise (IndexError "index out of self.SIGNATURE range")
  else
    let pad_start :=
      Py.sum (Py.getslice_opt SIGNATURE None (Some index)) in
    match Py.getitem SIGNATURE index with
    | Some w => Return (pad_start, pad_start + w)
    | None => Raise (IndexError "tuple index out of range")
    end.

(** [self.bytearray[self._get_slicers(index)]], the read of field
    [index] in the property getters of the subclasses. *)
Definition get_field (SIGNATURE : list Z) (index : Z)
  : Buf (list Z) :=
  fun ba =>
    match _get_slicers SIGNATURE index with
    | Raise e => (ba, Raise e)
    | Return (a, b) => (ba, Return (Py.getslice ba a b))
    end.

(** [self.bytearray[self._get_slicers(index)] = data], the write of
    field [index] in the property setters of the subclasses, on an
    instance whose buffer is a [bytearray]. *)
Definition set_field (SIGNATURE : list Z) (index : Z)
    (data : list Z) : Buf unit :=
  fun ba =>
    match _get_slicers SIGNATURE index with
    | Raise e => (ba, Raise e)
    | Return (a, b) => Py.bytearray_setslice a b data ba
    end.

Definition __bytes__ (ba : list Z) : list Z := ba.

Definition __str__ (ba : list Z) : string := Py.hexdump ba.

End StructNoPointers.

(** *** [class ucred(StructNoPointers)] *)
Module ucred.

Definition SIGNATURE : list Z := [SIZEOF_U32; SIZEOF_U32; SIZEOF_U32].
Definition SIZEOF : Z := Py.sum SIGNATURE.

Section Platform.

Variable big_endian : bool.

(** Getter of field [index]:
    [ctypes.c_uint32.from_buffer(self.bytearray[self._get_slicers(index)]).value] *)
Definition getter (index : Z) : Buf Z :=
  bind (StructNoPointers.get_field SIGNATURE index)
       (fun field ba =>
          (ba, Ctypes.c_uint32_from_buffer big_endian field)).

(** Setter of field [index]:
    [self.bytearray[self._get_slicers(index)] = bytearray(ctypes.c_int32(value or 0))] *)
Definition setter (index : Z) (value : option Z) : Buf unit :=
  StructNoPointers.set_field SIGNATURE index
    (Ctypes.c_int32_bytes big_endian (Py.or_ value 0)).

Definition pid : Buf Z := getter 0.
Definition set_pid : option Z -> Buf unit := setter 0.
Definition uid : Buf Z := getter 1.
Definition set_uid : option Z -> Buf unit := setter 1.
Definition gid : Buf Z := getter 2.
Definition set_gid : option Z -> Buf unit := setter 2.

(** [__init__(self, pid=0, uid=0, gid=0)]: the new instance's
    buffer and the outcome of the constructor. *)
Definition __init__ (pid uid gid : option Z) : list Z * result unit :=
  (set_pid pid >>- set_uid uid >>- set_gid gid)
    (replicate (Z.to_nat SIZEOF) 0).

(** [__repr__] with [_REPR = '<{0}.{1} pid={2[pid]} uid={2[uid]}
    gid={2[uid]}>']: the fields of the template are filled from left
    to right; [{0}] and [{1}] are the module and the class name, and
    each [{2[key]}] looks [key] up in the [_DynamicDict], which holds
    nothing and so calls [getattr(self, key)], here the getter of the
    property, whose int is rendered by [str]. *)
Definition __repr__ : Buf string :=
  bind pid (fun pid_value =>
  bind uid (fun uid_value =>
  bind uid (fun gid_value =>
  ret (String.append "<libnl.misc.ucred pid="
        (String.append (Py.str_int pid_value)
        (String.append " uid="
        (String.append (Py.str_int uid_value)
        (String.append " gid="
        (String.append (Py.str_int gid_value) ">"))))))))).

End Platform.

End ucred.

(** *** [class StructWithPointers] *)
Module StructWithPointers.

(** A slot holds a bytes-like object.  The two classes differ in one
    respect the code depends on: a [bytes] object can be hashed, a
    [bytearray] cannot. *)
Inductive pybuf : Type :=
  | PyBytes (content : list Z)
  | PyByteArray (content : list Z).

Definition content (a : pybuf) : list Z :=
  match a with
  | PyBytes c => c
  | PyByteArray c => c
  end.

(** An instance: the slots and the side table.  The keys of a dict
    are hashable, so a key is a [bytes] object, given by its
    content. *)
Record t : Type := {
  bytearrays : list pybuf;
  pointers : gmap (list Z) (list Z)
}.

(** [__init__(self, var_count)]: [var_count] empty [bytearray()]
    slots and an empty dict. *)
Definition __init__ (var_count : Z) : t :=
  {| bytearrays := replicate (Z.to_nat var_count) (PyByteArray []);
     pointers := ∅ |}.

(** What hashing a [bytearray] raises. *)
Definition unhashable : exn :=
  TypeError "unhashable type: 'bytearray'".

(** [key in d] for a dict [d]: the key is hashed first, which raises
    for a [bytearray]. *)
Definition dict_contains (d : gmap (list Z) (list Z)) (key : pybuf)
  : result bool :=
  match key with
  | PyByteArray _ => Raise unhashable
  | PyBytes c => Return (bool_decide (is_Some (d !! c)))
  end.

(** [d[key]] *)
Definition dict_getitem (d : gmap (list Z) (list Z)) (key : pybuf)
  : result (list Z) :=
  match key with
  | PyByteArray _ => Raise unhashable
  | PyBytes c =>
      match d !! c with
      | Some payload => Return payload
      | None => Raise KeyError
      end
  end.

(** What the generator expression
    [(c for a in self.bytearrays if a for c in a if c)] would
    yield. *)
Definition nonzero_items (self : t) : list Z :=
  a ← bytearrays self;
  if Py.truth (Py.ByteArray (content a))
  then filter (fun c => c ≠ 0) (content a)
  else [].

(** [not not (c for a in self.bytearrays if a for c in a if c)]:
    the operand of [not] is the generator object itself. *)
Definition __bool__ (self : t) : bool :=
  negb (negb (Py.truth (Py.Generator (nonzero_items self)))).

(** [bytes(c for a in self.bytearrays for c in a)] *)
Definition __bytes__ (self : t) : list Z :=
  a ← bytearrays self; content a.

(** The loop of the [bytearray] property over the remaining slots,
    [resolved] being what has been collected so far. *)
Fixpoint resolve (ptrs : gmap (list Z) (list Z))
    (arrays : list pybuf) (resolved : list Z) : result (list Z) :=
  match arrays with
  | [] => Return resolved
  | array :: rest =>
      match dict_contains ptrs array with
      | Raise e => Raise e
      | Return true =>
          match dict_getitem ptrs array with
          | Raise e => Raise e
          | Return payload => resolve ptrs rest (resolved ++ payload)
          end
      | Return false => resolve ptrs rest (resolved ++ content array)
      end
  end.

(** The substitution the [bytearray] property is meant to make for
    a slot with bytes [c]: the registered payload where [c] is a
    key of the side table, [c] itself otherwise. *)
Definition substituted (ptrs : gmap (list Z) (list Z)) (c : list Z)
  : list Z :=
  default c (ptrs !! c).

(** [' '.join(format(c, '02x') for a in self.bytearrays for c in a)] *)
Definition __str__ (self : t) : string := Py.hexdump (__bytes__ self).

(** The [bytearray] property. *)
Definition bytearray (self : t) : result (list Z) :=
  resolve (pointers self) (bytearrays self) [].

Section Platform.

Variable big_endian : bool.

(** [ctypes.sizeof(ctypes.c_void_p)] *)
Variable SIZEOF_POINTER : Z.

(** [randint n] is what the [n]-th call of
    [random.randint(1, 2 ** (8 * SIZEOF_POINTER))] returns. *)
Variable randint : nat -> Z.

(** [bytearray(bytes(ctypes.c_uint64(candidate_int)))[:SIZEOF_POINTER]] *)
Definition candidate (candidate_int : Z) : pybuf :=
  PyByteArray
    (Py.getslice_opt (Ctypes.c_uint64_bytes big_endian candidate_int)
                     None (Some SIZEOF_POINTER)).

(** The [while True] loop of [new_pointer], [calls] draws having
    been made; [None] when [fuel] iterations did not end it. *)
Fixpoint new_pointer_loop (fuel : nat) (calls : nat) (self : t)
  : option (result pybuf) :=
  match fuel with
  | O => None
  | S fuel' =>
      let candidate_int := randint calls in
      let candidate_ba := candidate candidate_int in
      match dict_contains (pointers self) candidate_ba with
      | Raise e => Some (Raise e)
      | Return false => Some (Return candidate_ba)
      | Return true => new_pointer_loop fuel' (S calls) self
      end
  end.

Definition new_pointer (fuel : nat) (self : t)
  : option (result pybuf) :=
  new_pointer_loop fuel 0 self.

End Platform.

End StructWithPointers.

(** *** [class bytearray_ptr]

    The pointee is shared with whoever created the view, so its
    contents are threaded through every call ([Buf]); the instance
    itself holds the two bounds of [self.slice]. *)
Module bytearray_ptr.

Record t : Type := {
  slice_start : Z;
  slice_stop : Z
}.

(** A subscript: an integer or a slice without a step. *)
Inductive key : Type :=
  | Index (i : Z)
  | Slice (start stop : option Z).

(** What is assigned: an integer or a bytes-like object. *)
Inductive value : Type :=
  | Int (v : Z)
  | Bytes (v : list Z).

(** The exceptions of the class, with [self.__class__.__name__]
    filled in. *)
Definition length_changed : exn :=
  TypeError "length of 'bytearray_ptr' object cannot be changed".
Definition out_of_range : exn :=
  IndexError "bytearray_ptr index out of range".
Definition no_deletion : exn :=
  TypeError "'bytearray_ptr' object doesn't support item deletion".
Definition bug_found : exn :=
  RuntimeError "Bug in bytearray_ptr found! Please report this.".

(** [__init__(self, pointee, start=None, stop=None)] *)
Definition __init__ (pointee : list Z) (start stop : option Z) : t :=
  let start := Py.or_ start 0 in
  let stop :=
    match stop with
    | None => Py.len pointee
    | Some s => if s =? 0 then start else s
    end in
  let start := if start <? 0 then start + Py.len pointee else start in
  let stop := if stop <? 0 then stop + Py.len pointee else stop in
  {| slice_start := start; slice_stop := stop |}.

(** [self.pointee[self.slice]] *)
Definition window (self : t) (pointee : list Z) : list Z :=
  Py.getslice pointee (slice_start self) (slice_stop self).

Definition __len__ (self : t) (pointee : list Z) : Z :=
  Py.len (window self pointee).

(** [copy] and [__getitem__] with a slice: [self.pointee[self.slice][item]] *)
Definition copy (self : t) (pointee : list Z) : list Z :=
  window self pointee.

Definition getslice (self : t) (start stop : option Z)
    (pointee : list Z) : list Z :=
  Py.getslice_opt (window self pointee) start stop.

Definition __getitem__ (self : t) (item : key) : Buf value :=
  fun pointee =>
    match item with
    | Index i =>
        match Py.getitem (window self pointee) i with
        | Some b => (pointee, Return (Int b))
        | None =>
            (pointee, Raise (IndexError "bytearray index out of range"))
        end
    | Slice a b => (pointee, Return (Bytes (getslice self a b pointee)))
    end.

Definition __delitem__ (self : t) (item : key) : Buf unit :=
  throw no_deletion.

Definition __setitem__ (self : t) (item : key) (val : value) : Buf unit :=
  fun pointee =>
    let n := __len__ self pointee in
    (* Handle integer keys (lookup). *)
    let '(key_is_int, key_start, key_stop) :=
      match item with
      | Slice a b => (false, a, b)
      | Index k =>
          let k := if k <? 0 then k + n else k in
          (true, Some k, Some (k + 1))
      end in
    (* Calculate slices. *)
    let start := Py.or_ key_start 0 in
    let start := if start <? 0 then start + n else start in
    if start >=? n then
      (pointee, Raise out_of_range)
    else
      let stop :=
        match key_stop with
        | None => n
        | Some s => if s =? 0 then start else s
        end in
      let stop := if stop <? 0 then stop + n else stop in
      let start := start + slice_start self in
      let stop := stop + slice_start self in
      let stop := Z.min stop (slice_stop self) in
      (* Catch invalid length. *)
      let original_length := Py.len pointee in
      let length_checked : result unit :=
        if key_is_int then Return tt
        else
          match val with
          | Int _ =>
              Raise (TypeError "object of type 'int' has no len()")
          | Bytes v =>
              if Py.len (Py.getslice pointee start stop) =? Py.len v
              then Return tt
              else Raise length_changed
          end in
      match length_checked with
      | Raise e => (pointee, Raise e)
      | Return _ =>
          (* Handle slices. *)
          let assigned : list Z * result unit :=
            match key_is_int, val with
            | true, Int v => Py.bytearray_setitem start v pointee
            | true, Bytes _ =>
                (pointee, Raise (TypeError
                   "'bytes' object cannot be interpreted as an integer"))
            | false, Bytes v => Py.bytearray_setslice start stop v pointee
            | false, Int _ =>
                (pointee, Raise (TypeError
                   "can assign only bytes, buffers, or iterables of ints in range(0, 256)"))
            end in
          match assigned with
          | (pointee', Raise e) => (pointee', Raise e)
          | (pointee', Return _) =>
              (* Catch bugs. *)
              if Py.len pointee' =? original_length
              then (pointee', Return tt)
              else (pointee', Raise bug_found)
          end
      end.

(** A ten-byte buffer to try the views on. *)
Definition buf10 : list Z := [10; 11; 12; 13; 14; 15; 16; 17; 18; 19].

End bytearray_ptr.

(** The write of field [index] of a [StructNoPointers] instance whose
    buffer is a [bytearray_ptr]: the slice assignment
    [self.bytearray[self._get_slicers(index)] = data] is then the
    view's [__setitem__]. *)
Definition set_field_through_view (SIGNATURE : list Z) (index : Z)
    (data : list Z) (view : bytearray_ptr.t) : Buf unit :=
  fun pointee =>
    match StructNoPointers._get_slicers SIGNATURE index with
    | Raise e => (pointee, Raise e)
    | Return (a, b) =>
        bytearray_ptr.__setitem__ view
          (bytearray_ptr.Slice (Some a) (Some b))
          (bytearray_ptr.Bytes data) pointee
    end.

End Misc.

(** * Properties *)

(** ** Bit masks *)

Lemma testbit_1 (i : Z) : Z.testbit 1 i = (i =? 0).
Proof. destruct i as [|p|p]; try reflexivity; destruct p; reflexivity. Qed.

Lemma testbit_2 (i : Z) : Z.testbit 2 i = (i =? 1).
Proof.
  destruct i as [|p|p]; try reflexivity.
  destruct p as [p|p|]; try reflexivity; destruct p; reflexivity.
Qed.

Lemma land_1_testbit (m : Z) : (Z.land m 1 =? 0) = negb (Z.testbit m 0).
Proof.
  change 1 with (Z.ones 1). rewrite Z.land_ones by lia.
  change (2 ^ 1) with 2. rewrite <- Z.bit0_mod.
  destruct (Z.testbit m 0); reflexivity.
Qed.

(** ** The family descriptor *)

Section FamilyDescriptor.

Import Family.

Variable GENL_ID_GENERATE : Z.

Lemma get_id_by_bit (family : genl_family) :
  genl_family_get_id GENL_ID_GENERATE family =
    (if Z.testbit (ce_mask family) 0 then gf_id family
     else GENL_ID_GENERATE).
Proof.
  unfold genl_family_get_id, FAMILY_ATTR_ID.
  rewrite land_1_testbit. destruct (Z.testbit (ce_mask family) 0); reflexivity.
Qed.

(** C1: [genl_family_get_id] returns the stored [gf_id] when bit 0x01
    of [ce_mask] is set and [GENL_ID_GENERATE] otherwise, whatever
    [gf_id] holds; on a freshly allocated descriptor, also after a
    [genl_family_set_name], it returns [GENL_ID_GENERATE]. *)
Theorem genl_family_get_id_spec (family : genl_family) :
  genl_family_get_id GENL_ID_GENERATE family =
    (if Z.testbit (ce_mask family) 0 then gf_id family
     else GENL_ID_GENERATE)
  /\ genl_family_get_id GENL_ID_GENERATE genl_family_alloc
     = GENL_ID_GENERATE
  /\ (forall name,
        genl_family_get_id GENL_ID_GENERATE
          (genl_family_set_name genl_family_alloc name)
        = GENL_ID_GENERATE).
Proof.
  split; [apply get_id_by_bit|].
  split; [reflexivity | intros name; reflexivity].
Qed.

(** C2: [genl_family_set_id] stores the value in [gf_id] and sets bit
    0x01 of [ce_mask]; [genl_family_set_name] stores the name in
    [gf_name] and sets bit 0x02.  Every other bit of [ce_mask] and
    every other field is as before.  Both are total: there is no
    failure outcome.  After [genl_family_set_id family v],
    [genl_family_get_id] returns [v]. *)
Theorem genl_family_setters_spec (family : genl_family) (v : Z)
    (n : string) :
  let f1 := genl_family_set_id family v in
  let f2 := genl_family_set_name family n in
  (gf_id f1 = v
   /\ Z.testbit (ce_mask f1) 0 = true
   /\ (forall i, Z.testbit (ce_mask f1) i
                 = Z.testbit (ce_mask family) i || (i =? 0))
   /\ gf_name f1 = gf_name family
   /\ gf_version f1 = gf_version family
   /\ gf_hdrsize f1 = gf_hdrsize family
   /\ gf_maxattr f1 = gf_maxattr family
   /\ gf_mc_grps f1 = gf_mc_grps family
   /\ genl_family_get_id GENL_ID_GENERATE f1 = v)
  /\ (gf_name f2 = n
      /\ Z.testbit (ce_mask f2) 1 = true
      /\ (forall i, Z.testbit (ce_mask f2) i
                    = Z.testbit (ce_mask family) i || (i =? 1))
      /\ gf_id f2 = gf_id family
      /\ gf_version f2 = gf_version family
      /\ gf_hdrsize f2 = gf_hdrsize family
      /\ gf_maxattr f2 = gf_maxattr family
      /\ gf_mc_grps f2 = gf_mc_grps family).
Proof.
  assert (Hid : forall i, Z.testbit (Z.lor (ce_mask family) FAMILY_ATTR_ID) i
                = Z.testbit (ce_mask family) i || (i =? 0)).
  { intros i. rewrite Z.lor_spec. unfold FAMILY_ATTR_ID.
    now rewrite testbit_1. }
  assert (Hname : forall i,
             Z.testbit (Z.lor (ce_mask family) FAMILY_ATTR_NAME) i
             = Z.testbit (ce_mask family) i || (i =? 1)).
  { intros i. rewrite Z.lor_spec. unfold FAMILY_ATTR_NAME.
    now rewrite testbit_2. }
  cbn zeta. split.
  - repeat split; try reflexivity;
      cbn [ce_mask genl_family_set_id assign_ce_mask assign_gf_id].
    + rewrite Hid. apply orb_true_r.
    + exact Hid.
    + rewrite get_id_by_bit.
      cbn [ce_mask gf_id genl_family_set_id assign_ce_mask assign_gf_id].
      rewrite Hid.
      now rewrite orb_true_r.
  - repeat split; try reflexivity;
      cbn [ce_mask genl_family_set_name assign_ce_mask assign_gf_name].
    + rewrite Hname. apply orb_true_r.
    + exact Hname.
Qed.

(** C3 (as the code behaves): [genl_family_add_grp] builds a group and
    raises [NotImplementedError]; the descriptor it was given is
    passed back as it was, so the group collection and [ce_mask] are
    unchanged and no [0] is returned. *)
Theorem genl_family_add_grp_raises (family : genl_family) (id_ : Z)
    (name : string) :
  genl_family_add_grp family id_ name = (family, Raise NotImplementedError)
  /\ gf_mc_grps (fst (genl_family_add_grp family id_ name))
     = gf_mc_grps family
  /\ ce_mask (fst (genl_family_add_grp family id_ name)) = ce_mask family
  /\ snd (genl_family_add_grp family id_ name) <> Return 0.
Proof. repeat split. discriminate. Qed.

End FamilyDescriptor.

(** ** Structures with pointers *)

Section IndirectLayout.

Import Misc.StructWithPointers.

(** With a [bytearray] in the first slot the [bytearray] property
    stops at the membership test. *)
Lemma resolve_bytearray_slot ptrs c rest resolved :
  resolve ptrs (PyByteArray c :: rest) resolved = Raise unhashable.
Proof. reflexivity. Qed.

(** The first [bytearray] slot ends the loop, whatever [bytes] slots
    come before it. *)
Lemma resolve_raises ptrs arrays c resolved :
  PyByteArray c ∈ arrays ->
  resolve ptrs arrays resolved = Raise unhashable.
Proof.
  revert resolved.
  induction arrays as [|a rest IH]; intros resolved Hin.
  - inversion Hin.
  - destruct a as [k|k]; [|reflexivity].
    apply elem_of_cons in Hin as [Heq|Hin]; [discriminate|].
    cbn [resolve dict_contains dict_getitem].
    destruct (ptrs !! k) as [payload|] eqn:Hk.
    + rewrite bool_decide_eq_true_2 by eauto. now apply IH.
    + rewrite bool_decide_eq_false_2 by (intros [? ?]; congruence).
      now apply IH.
Qed.

(** What the loop collects when every slot holds a hashable [bytes]
    object. *)
Lemma resolve_bytes_slots ptrs (slots : list (list Z)) resolved :
  resolve ptrs (PyBytes <$> slots) resolved
  = Return (resolved ++ (c ← slots; substituted ptrs c)).
Proof.
  revert resolved.
  induction slots as [|c rest IH]; intros resolved; cbn.
  - now rewrite app_nil_r.
  - unfold substituted at 1.
    destruct (ptrs !! c) as [payload|] eqn:Hc; cbn;
      rewrite IH; now rewrite <- app_assoc.
Qed.

Lemma bytearray_bytes_slots ptrs (slots : list (list Z)) :
  bytearray {| bytearrays := PyBytes <$> slots; pointers := ptrs |}
  = Return (c ← slots; substituted ptrs c).
Proof. unfold bytearray. cbn. now rewrite resolve_bytes_slots. Qed.

(** C6 (as the code behaves): on an instance as [__init__] builds it,
    with at least one slot, and on any instance whose first slot is a
    [bytearray], the [bytearray] property raises TypeError at
    [array in self.pointers] and returns nothing; so does an instance
    with one [bytearray] slot whose bytes equal a registered key. *)
Theorem bytearray_property_raises :
  bytearray (__init__ 1) = Raise unhashable
  /\ (forall ptrs c rest,
        bytearray {| bytearrays := PyByteArray c :: rest;
                     pointers := ptrs |} = Raise unhashable)
  /\ bytearray {| bytearrays := [PyByteArray [1; 0; 0; 0; 0; 0; 0; 0]];
                  pointers := {[ [1; 0; 0; 0; 0; 0; 0; 0] := [7; 8; 9] ]} |}
     = Raise unhashable.
Proof. repeat split. Qed.

(** C7 (as the code behaves): whatever the platform, the random draws
    and the side table, the first iteration of [new_pointer] raises
    TypeError at [candidate_ba not in self.pointers]; no token is
    returned. *)
Theorem new_pointer_raises (big_endian : bool) (SIZEOF_POINTER : Z)
    (randint : nat -> Z) (self : t) :
  (forall fuel,
      new_pointer big_endian SIZEOF_POINTER randint (S fuel) self
      = Some (Raise unhashable))
  /\ (forall fuel token,
        new_pointer big_endian SIZEOF_POINTER randint fuel self
        <> Some (Return token)).
Proof.
  split; [reflexivity|].
  intros [|fuel] token; cbn; discriminate.
Qed.

(** The generator of [__bool__] yields nothing when every slot is
    empty or holds zero bytes only. *)
Lemma nonzero_items_zero_slots (self : t) :
  Forall (fun a => Forall (fun c => c = 0) (content a)) (bytearrays self) ->
  nonzero_items self = [].
Proof.
  unfold nonzero_items. induction 1 as [|a rest Ha _ IH]; [reflexivity|].
  cbn [mbind list_bind]. rewrite IH, app_nil_r.
  destruct (Py.truth _); [|reflexivity].
  induction Ha as [|c cs Hc _ IHc]; [reflexivity|].
  rewrite filter_cons_False by (intros Hne; now apply Hne). exact IHc.
Qed.

(** By contrast, [StructNoPointers.__bool__] strips the zero bytes and
    tests what is left. *)
Lemma StructNoPointers_bool_zero_bytes :
  Misc.StructNoPointers.__bool__ [0; 0; 0; 0] = false
  /\ Misc.StructNoPointers.__bool__ [0; 3; 0] = true.
Proof. split; reflexivity. Qed.

(** C10: truth-testing an instance gives [True] whatever the slots and
    the side table hold; in particular on an instance whose slots are
    all empty, where the generator would yield nothing. *)
Theorem StructWithPointers_bool_true (self : t) :
  __bool__ self = true
  /\ (forall var_count,
        nonzero_items (__init__ var_count) = []
        /\ __bool__ (__init__ var_count) = true)
  /\ (forall ptrs,
        let zeros := {| bytearrays := [PyByteArray [0; 0]; PyByteArray [0]];
                        pointers := ptrs |} in
        nonzero_items zeros = [] /\ __bool__ zeros = true).
Proof.
  split; [reflexivity|]. split; [|intros; split; reflexivity].
  intros var_count. split; [|reflexivity].
  unfold nonzero_items, __init__. cbn [bytearrays].
  induction (Z.to_nat var_count) as [|k IH]; [reflexivity|exact IH].
Qed.

End IndirectLayout.

(** ** Slices with bounds in range *)

Lemma clamp_in_range (n i : Z) : 0 <= i <= n -> Py.clamp n i = i.
Proof. unfold Py.clamp. intros H. destruct (Z.ltb_spec i 0); lia. Qed.

Lemma getslice_in_range {A} (l : list A) (a b : Z) :
  0 <= a <= b -> b <= Py.len l ->
  Py.getslice l a b = take (Z.to_nat (b - a)) (drop (Z.to_nat a) l).
Proof.
  intros Hab Hb. unfold Py.getslice.
  now rewrite !clamp_in_range by lia.
Qed.

Lemma setslice_in_range {A} (l : list A) (a b : Z) (v : list A) :
  0 <= a <= b -> b <= Py.len l ->
  Py.setslice l a b v = take (Z.to_nat a) l ++ v ++ drop (Z.to_nat b) l.
Proof.
  intros Hab Hb. unfold Py.setslice.
  rewrite !clamp_in_range by lia. now rewrite Z.max_r by lia.
Qed.

Lemma length_getslice_in_range {A} (l : list A) (a b : Z) :
  0 <= a <= b -> b <= Py.len l -> Py.len (Py.getslice l a b) = b - a.
Proof.
  intros Hab Hb. rewrite getslice_in_range by assumption.
  unfold Py.len in *. rewrite length_take, length_drop. lia.
Qed.

Lemma getitem_in_range {A} (l : list A) (i : Z) :
  0 <= i < Py.len l -> Py.getitem l i = l !! Z.to_nat i.
Proof.
  intros H. unfold Py.getitem.
  destruct (Z.ltb_spec i 0); [lia|].
  destruct (Z.leb_spec 0 i); [|lia].
  destruct (Z.ltb_spec i (Py.len l)); [|lia]. reflexivity.
Qed.

(** ** Fixed-layout structures *)

Section FixedLayout.

Import Misc.

Lemma sum_app (l1 l2 : list Z) : Py.sum (l1 ++ l2) = Py.sum l1 + Py.sum l2.
Proof. induction l1 as [|x l1 IH]; cbn; lia. Qed.

Lemma sum_nonneg (l : list Z) : Forall (fun w => 0 <= w) l -> 0 <= Py.sum l.
Proof. induction 1; cbn; lia. Qed.

(** The field ranges lie inside a buffer as long as the signature. *)
Lemma field_range_bounds (SIGNATURE : list Z) (i : nat) (w : Z) :
  Forall (fun w => 0 <= w) SIGNATURE ->
  SIGNATURE !! i = Some w ->
  0 <= Py.sum (take i SIGNATURE)
  /\ 0 <= w
  /\ Py.sum (take i SIGNATURE) + w <= Py.sum SIGNATURE.
Proof.
  intros Hpos Hw.
  rewrite <- (take_drop_middle _ _ _ Hw) at 3.
  rewrite sum_app. cbn [Py.sum].
  rewrite <- (take_drop_middle _ _ _ Hw) in Hpos.
  apply Forall_app in Hpos as [H1 H2]. apply Forall_cons in H2 as [H2 H3].
  apply sum_nonneg in H1, H3. lia.
Qed.

(** [_get_slicers] on an index of the signature: the field starts
    after the widths before it and is as wide as the signature says. *)
Lemma get_slicers_in_range (SIGNATURE : list Z) (i : nat) (w : Z) :
  SIGNATURE !! i = Some w ->
  StructNoPointers._get_slicers SIGNATURE (Z.of_nat i)
  = Return (Py.sum (take i SIGNATURE), Py.sum (take i SIGNATURE) + w).
Proof.
  intros Hw. pose proof (lookup_lt_Some _ _ _ Hw) as Hlt.
  unfold StructNoPointers._get_slicers.
  rewrite (getitem_in_range SIGNATURE 0) by (unfold Py.len; lia).
  rewrite (getitem_in_range SIGNATURE (Z.of_nat i))
    by (unfold Py.len; lia).
  destruct i as [|i].
  - change (Z.of_nat 0) with 0. rewrite Z.eqb_refl.
    change (Z.to_nat 0) with 0%nat. rewrite Hw. reflexivity.
  - destruct (Z.eqb_spec (Z.of_nat (S i)) 0); [lia|].
    destruct (Z.geb_spec (Z.of_nat (S i)) (Py.len SIGNATURE));
      [unfold Py.len in *; lia|].
    rewrite Nat2Z.id, Hw.
    unfold Py.getslice_opt. cbv [default from_option id].
    rewrite getslice_in_range by (unfold Py.len in *; lia).
    rewrite Z.sub_0_r, Nat2Z.id. reflexivity.
Qed.

(** On a [bytearray] buffer as long as the signature, the write of
    field [i] replaces the bytes of the field's range by [data],
    whatever the length of [data]. *)
Lemma set_field_bytearray (SIGNATURE : list Z) (i : nat) (w : Z)
    (data ba : list Z) :
  Forall (fun w => 0 <= w) SIGNATURE ->
  Py.len ba = Py.sum SIGNATURE ->
  SIGNATURE !! i = Some w ->
  forallb Py.is_byte data = true ->
  let a := Py.sum (take i SIGNATURE) in
  let ba' := take (Z.to_nat a) ba ++ data ++ drop (Z.to_nat (a + w)) ba in
  StructNoPointers.set_field SIGNATURE (Z.of_nat i) data ba
  = (ba', Return tt)
  /\ Py.len ba' = Py.len ba - w + Py.len data
  /\ (Py.len ba' = Py.len ba <-> Py.len data = w).
Proof.
  intros Hpos Hlen Hw Hbytes a ba'.
  destruct (field_range_bounds _ _ _ Hpos Hw) as (Ha & Hw0 & Hend).
  fold a in Ha, Hend.
  assert (Hl : Py.len ba' = Py.len ba - w + Py.len data).
  { unfold ba', Py.len in *.
    rewrite !length_app, length_take, length_drop. lia. }
  split; [|split; [exact Hl | lia]].
  unfold StructNoPointers.set_field.
  rewrite (get_slicers_in_range _ _ _ Hw). fold a.
  unfold Py.bytearray_setslice. rewrite Hbytes.
  now rewrite setslice_in_range by lia.
Qed.

(** C9 (as stated) fails: on a [ucred]-shaped buffer of twelve zero
    bytes, writing two bytes to field 0, which is four wide, raises
    nothing and leaves a buffer of ten bytes; so it is not the case
    that every write of a wrong length raises and keeps the buffer. *)
Lemma set_field_wrong_length_resizes :
  StructNoPointers.set_field ucred.SIGNATURE 0 [1; 2] (replicate 12 0)
  = ([1; 2; 0; 0; 0; 0; 0; 0; 0; 0], Return tt)
  /\ ~ (forall (SIGNATURE : list Z) (i : nat) (w : Z) (data ba : list Z),
          SIGNATURE !! i = Some w ->
          Py.len data <> w ->
          exists e,
            StructNoPointers.set_field SIGNATURE (Z.of_nat i) data ba
            = (ba, Raise e)).
Proof.
  split; [reflexivity|].
  intros H.
  destruct (H ucred.SIGNATURE 0%nat 4 [1; 2] (replicate 12 0))
    as [e He]; [reflexivity | discriminate | discriminate].
Qed.

End FixedLayout.

(** ** Integers as bytes *)

Lemma length_le_bytes (n : nat) (v : Z) : length (Ctypes.le_bytes n v) = n.
Proof. revert v. induction n as [|n IH]; intros v; cbn; [|rewrite IH]; reflexivity. Qed.

Lemma le_bytes_is_byte (n : nat) (v : Z) :
  forallb Py.is_byte (Ctypes.le_bytes n v) = true.
Proof.
  revert v. induction n as [|n IH]; intros v; cbn; [reflexivity|].
  rewrite IH, andb_true_r. unfold Py.is_byte.
  pose proof (Z.mod_pos_bound v 256 ltac:(lia)).
  apply andb_true_intro. split; [apply Z.leb_le | apply Z.ltb_lt]; lia.
Qed.

Lemma le_value_le_bytes (n : nat) (v : Z) :
  Ctypes.le_value (Ctypes.le_bytes n v) = v mod 256 ^ Z.of_nat n.
Proof.
  revert v. induction n as [|n IH]; intros v.
  - cbn. now rewrite Z.mod_1_r.
  - cbn [Ctypes.le_bytes Ctypes.le_value]. rewrite IH.
    rewrite Nat2Z.inj_succ, Z.pow_succ_r by lia.
    rewrite (Z.rem_mul_r v 256 (256 ^ Z.of_nat n)) by lia. reflexivity.
Qed.

Section NativeBytes.

Variable big_endian : bool.

Lemma length_native_bytes (n : nat) (v : Z) :
  length (Ctypes.native_bytes big_endian n v) = n.
Proof.
  unfold Ctypes.native_bytes.
  destruct big_endian; rewrite ?length_rev; apply length_le_bytes.
Qed.

Lemma native_bytes_is_byte (n : nat) (v : Z) :
  forallb Py.is_byte (Ctypes.native_bytes big_endian n v) = true.
Proof.
  unfold Ctypes.native_bytes. destruct big_endian;
    [|apply le_bytes_is_byte].
  apply forallb_forall. intros x Hx. apply in_rev in Hx.
  pose proof (le_bytes_is_byte n v) as H.
  rewrite forallb_forall in H. now apply H.
Qed.

(** Reading back the bytes of a ctypes integer gives the value modulo
    its width. *)
Lemma native_value_native_bytes (n : nat) (v : Z) :
  Ctypes.native_value big_endian (Ctypes.native_bytes big_endian n v)
  = v mod 256 ^ Z.of_nat n.
Proof.
  unfold Ctypes.native_value, Ctypes.native_bytes.
  destruct big_endian; rewrite ?rev_involutive; apply le_value_le_bytes.
Qed.

(** The four bytes of a 32-bit value, spelled out. *)
Lemma native_bytes_4 (v : Z) :
  Ctypes.native_bytes big_endian 4 v
  = if big_endian
    then [v / 256 / 256 / 256 mod 256; v / 256 / 256 mod 256;
          v / 256 mod 256; v mod 256]
    else [v mod 256; v / 256 mod 256; v / 256 / 256 mod 256;
          v / 256 / 256 / 256 mod 256].
Proof. unfold Ctypes.native_bytes. destruct big_endian; reflexivity. Qed.

End NativeBytes.

(** ** The credentials structure *)

Section Credentials.

Import Misc.

Variable big_endian : bool.

Abbreviation enc := (Ctypes.native_bytes big_endian 4).

Lemma twelve_bytes (ba : list Z) :
  length ba = 12%nat ->
  exists b0 b1 b2 b3 b4 b5 b6 b7 b8 b9 b10 b11,
    ba = [b0; b1; b2; b3; b4; b5; b6; b7; b8; b9; b10; b11].
Proof.
  intros H.
  do 12 (destruct ba as [|? ba]; [discriminate|]).
  destruct ba; [|discriminate]. repeat eexists.
Qed.

Lemma four_bytes (bs : list Z) :
  length bs = 4%nat -> exists b0 b1 b2 b3, bs = [b0; b1; b2; b3].
Proof.
  intros H.
  do 4 (destruct bs as [|? bs]; [discriminate|]).
  destruct bs; [|discriminate]. repeat eexists.
Qed.

(** A setter on a twelve-byte buffer replaces the four bytes of its
    field. *)
Lemma setter_spec (i : nat) (index value : Z) (ba : list Z) :
  index = Z.of_nat i -> length ba = 12%nat -> (i < 3)%nat ->
  ucred.setter big_endian index (Some value) ba
  = (take (4 * i) ba ++ enc value ++ drop (4 * i + 4) ba, Return tt).
Proof.
  intros -> Hlen Hi. unfold ucred.setter.
  assert (Hor : enc (Py.or_ (Some value) 0) = enc value).
  { unfold Py.or_. destruct (Z.eqb_spec value 0); congruence. }
  unfold Ctypes.c_int32_bytes. rewrite Hor.
  assert (Hw : ucred.SIGNATURE !! i = Some 4).
  { do 3 (destruct i as [|i]; [reflexivity|]). lia. }
  destruct (set_field_bytearray ucred.SIGNATURE i 4 (enc value) ba)
    as [-> _]; try assumption.
  - repeat constructor; unfold SIZEOF_U32; lia.
  - unfold Py.len. rewrite Hlen. reflexivity.
  - apply native_bytes_is_byte.
  - do 3 (destruct i as [|i]; [reflexivity|]). lia.
Qed.

(** A getter on a twelve-byte buffer decodes the four bytes of its
    field. *)
Lemma getter_spec (i : nat) (index : Z) (ba : list Z) :
  index = Z.of_nat i -> length ba = 12%nat -> (i < 3)%nat ->
  ucred.getter big_endian index ba
  = (ba, Return (Ctypes.native_value big_endian
                   (take 4 (drop (4 * i) ba)))).
Proof.
  intros -> Hlen Hi.
  destruct (twelve_bytes ba Hlen)
    as (b0 & b1 & b2 & b3 & b4 & b5 & b6 & b7 & b8 & b9 & b10 & b11 & ->).
  do 3 (destruct i as [|i]; [reflexivity|]). lia.
Qed.

(** C8: on a [ucred] instance (a buffer of twelve bytes), setting
    [pid], [uid] and [gid] to unsigned 32-bit values succeeds; the
    buffer then is the four native-order bytes of [pid], those of
    [uid] and those of [gid], at offsets 0, 4 and 8, and each getter
    returns the value that was set.  The constructor called with its
    defaults gives twelve zero bytes, and each getter returns 0. *)
Theorem ucred_roundtrip (ba : list Z) (p u g : Z) :
  length ba = 12%nat ->
  0 <= p < 2 ^ 32 -> 0 <= u < 2 ^ 32 -> 0 <= g < 2 ^ 32 ->
  let ba' := enc p ++ enc u ++ enc g in
  (ucred.set_pid big_endian (Some p) >>-
   ucred.set_uid big_endian (Some u) >>-
   ucred.set_gid big_endian (Some g)) ba = (ba', Return tt)
  /\ ucred.__init__ big_endian (Some p) (Some u) (Some g)
     = (ba', Return tt)
  /\ length ba' = 12%nat
  /\ Py.getslice ba' 0 4 = enc p
  /\ Py.getslice ba' 4 8 = enc u
  /\ Py.getslice ba' 8 12 = enc g
  /\ ucred.pid big_endian ba' = (ba', Return p)
  /\ ucred.uid big_endian ba' = (ba', Return u)
  /\ ucred.gid big_endian ba' = (ba', Return g)
  /\ (let zero := ucred.__init__ big_endian (Some 0) (Some 0) (Some 0) in
      zero = (replicate 12 0, Return tt)
      /\ ucred.pid big_endian (fst zero) = (fst zero, Return 0)
      /\ ucred.uid big_endian (fst zero) = (fst zero, Return 0)
      /\ ucred.gid big_endian (fst zero) = (fst zero, Return 0)).
Proof.
  intros Hlen Hp Hu Hg ba'.
  assert (Hrun : forall ba0, length ba0 = 12%nat ->
            (ucred.set_pid big_endian (Some p) >>-
             ucred.set_uid big_endian (Some u) >>-
             ucred.set_gid big_endian (Some g)) ba0 = (ba', Return tt)).
  { clear ba Hlen. intros ba Hlen. unfold bind, ucred.set_pid,
      ucred.set_uid, ucred.set_gid.
    rewrite (setter_spec 0 0 p ba eq_refl Hlen) by lia.
    pose proof (length_native_bytes big_endian 4 p) as Lp.
    pose proof (length_native_bytes big_endian 4 u) as Lu.
    pose proof (length_native_bytes big_endian 4 g) as Lg.
    unfold ba'.
    destruct (four_bytes _ Lp) as (p0 & p1 & p2 & p3 & ->).
    destruct (four_bytes _ Lu) as (u0 & u1 & u2 & u3 & Eu).
    destruct (four_bytes _ Lg) as (g0 & g1 & g2 & g3 & Eg).
    destruct (twelve_bytes ba Hlen)
      as (b0 & b1 & b2 & b3 & b4 & b5 & b6 & b7 & b8 & b9 & b10 & b11 & ->).
    rewrite (setter_spec 1 1 u) by (reflexivity || lia).
    rewrite (setter_spec 2 2 g) by (rewrite ?Eu; reflexivity || lia).
    rewrite Eu, Eg. reflexivity. }
  pose proof (native_value_native_bytes big_endian 4 p) as Vp.
  pose proof (native_value_native_bytes big_endian 4 u) as Vu.
  pose proof (native_value_native_bytes big_endian 4 g) as Vg.
  change (256 ^ Z.of_nat 4) with (2 ^ 32) in Vp, Vu, Vg.
  rewrite Z.mod_small in Vp, Vu, Vg by assumption.
  assert (Hlen' : length ba' = 12%nat).
  { unfold ba'. now rewrite !length_app, !length_native_bytes. }
  assert (Hfields : Py.getslice ba' 0 4 = enc p
                    /\ Py.getslice ba' 4 8 = enc u
                    /\ Py.getslice ba' 8 12 = enc g).
  { unfold ba'.
    destruct (four_bytes _ (length_native_bytes big_endian 4 p))
      as (p0 & p1 & p2 & p3 & ->).
    destruct (four_bytes _ (length_native_bytes big_endian 4 u))
      as (u0 & u1 & u2 & u3 & ->).
    destruct (four_bytes _ (length_native_bytes big_endian 4 g))
      as (g0 & g1 & g2 & g3 & ->).
    repeat split. }
  destruct Hfields as (Fp & Fu & Fg).
  assert (Hget : forall (i : nat) index a b v,
            index = Z.of_nat i ->
            (i < 3)%nat -> a = 4 * Z.of_nat i -> b = a + 4 ->
            Py.getslice ba' a b = enc v ->
            Ctypes.native_value big_endian (enc v) = v ->
            ucred.getter big_endian index ba' = (ba', Return v)).
  { intros i index a b v Hindex Hi -> -> Hs Hv.
    rewrite (getter_spec i index) by assumption.
    rewrite getslice_in_range in Hs by (unfold Py.len; lia).
    replace (Z.to_nat (4 * Z.of_nat i + 4 - 4 * Z.of_nat i)) with 4%nat
      in Hs by lia.
    replace (Z.to_nat (4 * Z.of_nat i)) with (4 * i)%nat in Hs by lia.
    now rewrite Hs, Hv. }
  split; [now apply Hrun|].
  split; [apply Hrun; now rewrite length_replicate|].
  split; [exact Hlen'|].
  split; [exact Fp|]. split; [exact Fu|]. split; [exact Fg|].
  split; [apply (Hget 0%nat 0 0 4 p); (reflexivity || lia || assumption)|].
  split; [apply (Hget 1%nat 1 4 8 u); (reflexivity || lia || assumption)|].
  split; [apply (Hget 2%nat 2 8 12 g); (reflexivity || lia || assumption)|].
  cbn zeta. destruct big_endian; repeat split.
Qed.

End Credentials.

Lemma ucred_roundtrip_witness :
  let ba' := [100; 0; 0; 0; 200; 0; 0; 0; 44; 1; 0; 0] in
  Misc.ucred.__init__ false (Some 100) (Some 200) (Some 300)
  = (ba', Return tt)
  /\ Misc.ucred.pid false ba' = (ba', Return 100)
  /\ Misc.ucred.uid false ba' = (ba', Return 200)
  /\ Misc.ucred.gid false ba' = (ba', Return 300).
Proof.
  destruct (ucred_roundtrip false (replicate 12 0) 100 200 300)
    as (_ & Hinit & _ & _ & _ & _ & Hp & Hu & Hg & _);
    [reflexivity | lia | lia | lia |].
  exact (conj Hinit (conj Hp (conj Hu Hg))).
Defined.

(** ** Lengths of slices, for any bounds *)

Lemma len_nonneg {A} (l : list A) : 0 <= Py.len l.
Proof. unfold Py.len. lia. Qed.

Lemma clamp_bounds (n i : Z) : 0 <= n -> 0 <= Py.clamp n i <= n.
Proof. unfold Py.clamp. intros H. destruct (Z.ltb_spec i 0); lia. Qed.

Lemma len_getslice {A} (l : list A) (a b : Z) :
  Py.len (Py.getslice l a b)
  = Z.max 0 (Py.clamp (Py.len l) b - Py.clamp (Py.len l) a).
Proof.
  pose proof (clamp_bounds (Py.len l) a (len_nonneg l)).
  pose proof (clamp_bounds (Py.len l) b (len_nonneg l)).
  unfold Py.getslice. unfold Py.len at 1.
  rewrite length_take, length_drop. unfold Py.len in *. lia.
Qed.

Lemma len_setslice {A} (l : list A) (a b : Z) (v : list A) :
  Py.len (Py.setslice l a b v)
  = Py.len l - Py.len (Py.getslice l a b) + Py.len v.
Proof.
  rewrite len_getslice.
  pose proof (clamp_bounds (Py.len l) a (len_nonneg l)).
  pose proof (clamp_bounds (Py.len l) b (len_nonneg l)).
  unfold Py.setslice. unfold Py.len at 1.
  rewrite !length_app, length_take, length_drop. unfold Py.len in *. lia.
Qed.

Lemma or_0_default (x : option Z) : Py.or_ x 0 = default 0 x.
Proof.
  destruct x as [v|]; [|reflexivity]. cbn.
  destruct (Z.eqb_spec v 0); congruence.
Qed.

(** ** Bounded views *)

Section BoundedView.

Import Misc.bytearray_ptr.

Ltac case_tests :=
  repeat match goal with
    | |- context [?a <? ?b] => destruct (Z.ltb_spec a b)
    | |- context [?a =? ?b] => destruct (Z.eqb_spec a b)
    | |- context [?a >=? ?b] => destruct (Z.geb_spec a b)
    | |- context [?a <=? ?b] => destruct (Z.leb_spec a b)
    end.

(** An assignment to a byte range as long as the value keeps the
    buffer's length. *)
Lemma bytearray_setslice_same_len a b v ba ba' r :
  Py.len (Py.getslice ba a b) = Py.len v ->
  Py.bytearray_setslice a b v ba = (ba', r) ->
  Py.len ba' = Py.len ba.
Proof.
  unfold Py.bytearray_setslice. intros Hlen.
  destruct (forallb Py.is_byte v); intros [= <- <-]; [|reflexivity].
  rewrite len_setslice. lia.
Qed.

Lemma bytearray_setitem_same_len i v ba ba' r :
  Py.bytearray_setitem i v ba = (ba', r) -> Py.len ba' = Py.len ba.
Proof.
  unfold Py.bytearray_setitem.
  destruct (negb (Py.is_byte v)); [now intros [= <- <-]|].
  destruct (_ && _); intros [= <- <-]; [|reflexivity].
  unfold Py.len. now rewrite length_insert.
Qed.

Lemma bytearray_setslice_raise a b v ba ba' e :
  Py.bytearray_setslice a b v ba = (ba', Raise e) -> ba' = ba.
Proof.
  unfold Py.bytearray_setslice.
  destruct (forallb Py.is_byte v); now intros [= <-].
Qed.

Lemma bytearray_setitem_raise i v ba ba' e :
  Py.bytearray_setitem i v ba = (ba', Raise e) -> ba' = ba.
Proof.
  unfold Py.bytearray_setitem.
  destruct (negb (Py.is_byte v)); [now intros [= <-]|].
  destruct (_ && _); now intros [= <-].
Qed.

(** A rejected write leaves the pointee as it was, and the "Catch
    bugs" branch is never taken. *)
Lemma setitem_raise_unchanged self item val pointee pointee' e :
  __setitem__ self item val pointee = (pointee', Raise e) ->
  pointee' = pointee
  /\ e <> bug_found.
Proof.
  unfold __setitem__.
  destruct item as [k|a b]; cbv zeta iota beta.
  - match goal with |- context [if ?c then (pointee, _) else _] =>
      destruct c end; [intros [= <- <-]; split; [reflexivity|discriminate]|].
    destruct val as [v|v]; [|intros [= <- <-]; split; [reflexivity|discriminate]].
    match goal with |- context [Py.bytearray_setitem ?i ?v ?p] =>
      destruct (Py.bytearray_setitem i v p) as [p' [[]|e']] eqn:Hset end.
    + apply bytearray_setitem_same_len in Hset.
      rewrite Hset, Z.eqb_refl. discriminate.
    + intros [= <- <-]. split; [now apply bytearray_setitem_raise in Hset|].
      unfold Py.bytearray_setitem in Hset.
      destruct (negb _); [now injection Hset as _ <-|].
      destruct (_ && _); [discriminate|now injection Hset as _ <-].
  - match goal with |- context [if ?c then (pointee, _) else _] =>
      destruct c end; [intros [= <- <-]; split; [reflexivity|discriminate]|].
    destruct val as [v|v]; [intros [= <- <-]; split; [reflexivity|discriminate]|].
    match goal with |- context [Py.len (Py.getslice pointee ?x ?y) =? _] =>
      destruct (Z.eqb_spec (Py.len (Py.getslice pointee x y)) (Py.len v))
        as [Hlen|Hlen] end;
      [|intros [= <- <-]; split; [reflexivity|discriminate]].
    match goal with |- context [Py.bytearray_setslice ?x ?y ?v ?p] =>
      destruct (Py.bytearray_setslice x y v p) as [p' [[]|e']] eqn:Hset end.
    + apply (bytearray_setslice_same_len _ _ _ _ _ _ Hlen) in Hset.
      rewrite Hset, Z.eqb_refl. discriminate.
    + intros [= <- <-]. split; [now apply bytearray_setslice_raise in Hset|].
      unfold Py.bytearray_setslice in Hset.
      destruct (forallb _ _); [discriminate|now injection Hset as _ <-].
Qed.

(** The length of a view whose bounds lie inside the pointee. *)
Lemma len_view (self : t) (pointee : list Z) :
  0 <= slice_start self <= slice_stop self ->
  slice_stop self <= Py.len pointee ->
  __len__ self pointee = slice_stop self - slice_start self.
Proof.
  intros H1 H2. unfold __len__, window.
  now apply length_getslice_in_range.
Qed.

(** A slice write whose start is in range and whose value is not as
    long as the slice of the view it names raises the length
    TypeError. *)
Lemma setitem_length_mismatch (self : t) (pointee : list Z) a b v :
  0 <= slice_start self <= slice_stop self ->
  slice_stop self <= Py.len pointee ->
  - __len__ self pointee <= Py.or_ a 0 < __len__ self pointee ->
  match b with Some s => - __len__ self pointee <= s | None => True end ->
  Py.len v <> Py.len (getslice self a b pointee) ->
  __setitem__ self (Slice a b) (Bytes v) pointee
  = (pointee, Raise length_changed).
Proof.
  intros HS HE. set (n := __len__ self pointee).
  pose proof (len_view self pointee HS HE) as Hn. fold n in Hn.
  intros Ha Hb Hne.
  unfold getslice, Py.getslice_opt in Hne.
  rewrite len_getslice in Hne.
  change (Py.len (window self pointee)) with n in Hne.
  rewrite <- or_0_default in Hne.
  unfold __setitem__. cbv zeta iota beta. fold n.
  destruct (Z.ltb_spec (Py.or_ a 0) 0) as [Hneg|Hneg].
  - destruct (Z.geb_spec (Py.or_ a 0 + n) n); [lia|].
    rewrite len_getslice.
    match goal with |- context [?x =? Py.len v] =>
      destruct (Z.eqb_spec x (Py.len v)) as [Heq|]; [|reflexivity] end.
    exfalso. apply Hne. rewrite <- Heq. clear Heq Hne.
    destruct b as [s|]; cbn [default from_option id];
      unfold Py.clamp; case_tests; lia.
  - destruct (Z.geb_spec (Py.or_ a 0) n); [lia|].
    rewrite len_getslice.
    match goal with |- context [?x =? Py.len v] =>
      destruct (Z.eqb_spec x (Py.len v)) as [Heq|]; [|reflexivity] end.
    exfalso. apply Hne. rewrite <- Heq. clear Heq Hne.
    destruct b as [s|]; cbn [default from_option id];
      unfold Py.clamp; case_tests; lia.
Qed.

(** A slice write whose start is the view's length or more raises
    IndexError, whatever the value. *)
Lemma setitem_start_index_error (self : t) (pointee : list Z) a b val :
  __len__ self pointee <= Py.or_ a 0 ->
  __setitem__ self (Slice a b) val pointee = (pointee, Raise out_of_range).
Proof.
  intros Ha. unfold __setitem__. cbv zeta iota beta.
  pose proof (len_nonneg (window self pointee)) as Hpos.
  fold (__len__ self pointee) in Hpos.
  destruct (Z.ltb_spec (Py.or_ a 0) 0); [lia|].
  destruct (Z.geb_spec (Py.or_ a 0) (__len__ self pointee));
    [reflexivity|lia].
Qed.

(** C4 (amended): on a view whose bounds lie inside the pointee,
    [n] being the view's length: deleting an item raises TypeError
    whatever the key; a write to a slice whose start lies in
    [-n, n) and whose stop, if given, is at least [-n], with a value
    whose length differs from the length of that slice of the view,
    raises the length TypeError; a write to a slice whose start is
    [n] or more raises IndexError; and whenever a write raises, the
    pointee is as it was. *)
Theorem setitem_rejects (self : t) (pointee : list Z) :
  0 <= slice_start self <= slice_stop self ->
  slice_stop self <= Py.len pointee ->
  let n := __len__ self pointee in
  (forall item,
      __delitem__ self item pointee = (pointee, Raise no_deletion))
  /\ (forall a b v,
        - n <= Py.or_ a 0 < n ->
        match b with Some s => - n <= s | None => True end ->
        Py.len v <> Py.len (getslice self a b pointee) ->
        __setitem__ self (Slice a b) (Bytes v) pointee
        = (pointee, Raise length_changed))
  /\ (forall a b v,
        n <= Py.or_ a 0 ->
        __setitem__ self (Slice a b) (Bytes v) pointee
        = (pointee, Raise out_of_range))
  /\ (forall item val pointee' e,
        __setitem__ self item val pointee = (pointee', Raise e) ->
        pointee' = pointee).
Proof.
  intros HS HE n.
  split; [reflexivity|]. split; [|split].
  - intros a b v Ha Hb Hne. now apply setitem_length_mismatch.
  - intros a b v Ha. now apply setitem_start_index_error.
  - intros item val pointee' e H.
    now apply setitem_raise_unchanged in H.
Qed.

Lemma setitem_rejects_witness :
  let self := __init__ buf10 (Some 2) (Some 5) in
  __delitem__ self (Slice None None) buf10 = (buf10, Raise no_deletion)
  /\ __setitem__ self (Slice None None) (Bytes [1; 2]) buf10
     = (buf10, Raise length_changed)
  /\ __setitem__ self (Slice (Some 3) (Some 4)) (Bytes [1]) buf10
     = (buf10, Raise out_of_range)
  /\ (forall pointee' e,
        __setitem__ self (Slice (Some 1) (Some 2)) (Bytes [1; 2]) buf10
        = (pointee', Raise e) ->
        pointee' = buf10).
Proof.
  destruct (setitem_rejects (__init__ buf10 (Some 2) (Some 5)) buf10)
    as (Hdel & Hlen & Hidx & Hsame);
    [vm_compute; split; discriminate | vm_compute; discriminate |].
  split; [apply Hdel|]. split; [|split].
  - apply Hlen; [vm_compute; split; congruence | exact I |].
    vm_compute. discriminate.
  - apply Hidx. vm_compute. discriminate.
  - intros pointee' e H. exact (Hsame _ _ _ _ H).
Defined.

(** C4 (as stated) fails: on the view [2, 5) of a ten-byte buffer the
    slice [3:] of the view is empty, and writing one byte to
    it raises IndexError, not the length TypeError. *)
Lemma setitem_start_out_of_range :
  let self := __init__ buf10 (Some 2) (Some 5) in
  getslice self (Some 3) None buf10 = []
  /\ __setitem__ self (Slice (Some 3) None) (Bytes [1]) buf10
     = (buf10, Raise out_of_range)
  /\ __setitem__ self (Slice (Some 3) None) (Bytes [1]) buf10
     <> (buf10, Raise length_changed).
Proof. repeat split. discriminate. Qed.

(** C5 (amended): on a view [start, stop) with
    [0 <= start < stop <= len pointee], writing a byte sequence of
    length [stop - start] to the slice [:] of the view (or to
    [0:stop-start]) succeeds; afterwards the pointee holds the
    sequence at [start, stop), every byte before [start] and from
    [stop] on is as before, the pointee's length is as before, and
    the view reads as the sequence. *)
Theorem setitem_full_range (pointee v : list Z) (start stop : Z) :
  0 <= start < stop -> stop <= Py.len pointee ->
  Py.len v = stop - start ->
  forallb Py.is_byte v = true ->
  let self := __init__ pointee (Some start) (Some stop) in
  let pointee' :=
    take (Z.to_nat start) pointee ++ v ++ drop (Z.to_nat stop) pointee in
  self = {| slice_start := start; slice_stop := stop |}
  /\ __setitem__ self (Slice None None) (Bytes v) pointee
     = (pointee', Return tt)
  /\ __setitem__ self (Slice (Some 0) (Some (stop - start))) (Bytes v)
       pointee
     = (pointee', Return tt)
  /\ Py.len pointee' = Py.len pointee
  /\ (forall i : nat,
        start <= Z.of_nat i < stop ->
        pointee' !! i = v !! (i - Z.to_nat start)%nat)
  /\ (forall i : nat,
        Z.of_nat i < start \/ stop <= Z.of_nat i ->
        pointee' !! i = pointee !! i)
  /\ copy self pointee' = v.
Proof.
  intros Hse Hstop Hlen Hbytes self pointee'.
  assert (Hself : self = {| slice_start := start; slice_stop := stop |}).
  { unfold self, __init__, Py.or_. case_tests; try lia; congruence. }
  assert (Hl' : Py.len pointee' = Py.len pointee).
  { unfold pointee', Py.len in *.
    rewrite !length_app, length_take, length_drop. lia. }
  assert (Hn : __len__ self pointee = stop - start).
  { rewrite Hself. apply len_view; cbn; lia. }
  assert (Hset : Py.bytearray_setslice start stop v pointee
                 = (pointee', Return tt)).
  { unfold Py.bytearray_setslice. rewrite Hbytes.
    now rewrite setslice_in_range by lia. }
  assert (Hrange : Py.len (Py.getslice pointee start stop) = Py.len v).
  { rewrite length_getslice_in_range by lia. lia. }
  split; [exact Hself|]. split; [|split; [|split; [exact Hl'|]]].
  - unfold __setitem__. cbv zeta iota beta. rewrite Hn, Hself.
    cbn [slice_start slice_stop Py.or_].
    rewrite !Z.ltb_irrefl.
    destruct (Z.geb_spec 0 (stop - start)); [lia|].
    destruct (Z.ltb_spec (stop - start) 0); [lia|].
    replace (Z.min (stop - start + start) stop) with stop by lia.
    rewrite Z.add_0_l, Hrange, Z.eqb_refl, Hset, Hl', Z.eqb_refl.
    reflexivity.
  - unfold __setitem__. cbv zeta iota beta. rewrite Hn, Hself.
    cbn [slice_start slice_stop Py.or_].
    rewrite Z.eqb_refl, !Z.ltb_irrefl.
    destruct (Z.geb_spec 0 (stop - start)); [lia|].
    destruct (Z.eqb_spec (stop - start) 0); [lia|].
    destruct (Z.ltb_spec (stop - start) 0); [lia|].
    replace (Z.min (stop - start + start) stop) with stop by lia.
    rewrite Z.add_0_l, Hrange, Z.eqb_refl, Hset, Hl', Z.eqb_refl.
    reflexivity.
  - assert (Htake : length (take (Z.to_nat start) pointee)
                    = Z.to_nat start).
    { rewrite length_take. unfold Py.len in *. lia. }
    split; [|split].
    + intros i Hi. unfold pointee'.
      rewrite lookup_app_r by lia. rewrite Htake.
      apply lookup_app_l. unfold Py.len in *. lia.
    + intros i [Hi|Hi]; unfold pointee'.
      * rewrite lookup_app_l by lia. apply lookup_take_lt. lia.
      * rewrite lookup_app_r by lia. rewrite Htake.
        rewrite lookup_app_r by (unfold Py.len in *; lia).
        rewrite lookup_drop. f_equal. unfold Py.len in *. lia.
    + unfold copy, window. rewrite Hself. cbn [slice_start slice_stop].
      rewrite getslice_in_range by lia.
      unfold pointee'. rewrite drop_app_length' by (symmetry; exact Htake).
      rewrite take_app_length'; [reflexivity|].
      unfold Py.len in *. lia.
Qed.

Lemma setitem_full_range_witness :
  let self := __init__ buf10 (Some 2) (Some 5) in
  let pointee' := [10; 11; 1; 2; 3; 15; 16; 17; 18; 19] in
  __setitem__ self (Slice None None) (Bytes [1; 2; 3]) buf10
  = (pointee', Return tt)
  /\ Py.len pointee' = Py.len buf10
  /\ pointee' !! 3%nat = [1; 2; 3] !! 1%nat
  /\ pointee' !! 7%nat = buf10 !! 7%nat
  /\ copy self pointee' = [1; 2; 3].
Proof.
  destruct (setitem_full_range buf10 [1; 2; 3] 2 5)
    as (_ & Hset & _ & Hlen & Hin & Hout & Hcopy);
    [lia | vm_compute; discriminate | reflexivity | reflexivity |].
  split; [exact Hset|]. split; [exact Hlen|].
  split; [apply (Hin 3%nat); lia|].
  split; [apply (Hout 7%nat); lia | exact Hcopy].
Defined.

(** C5 (as stated) fails on an empty view: with [start = stop = 2]
    over ten bytes the replacement of length [stop - start] is empty,
    and writing it to the view's full range raises IndexError. *)
Lemma setitem_full_range_empty_view :
  let self := __init__ buf10 (Some 2) (Some 2) in
  self = {| slice_start := 2; slice_stop := 2 |}
  /\ Py.len (@nil Z) = slice_stop self - slice_start self
  /\ __setitem__ self (Slice None None) (Bytes []) buf10
     = (buf10, Raise out_of_range)
  /\ __setitem__ self (Slice (Some 0) (Some 0)) (Bytes []) buf10
     = (buf10, Raise out_of_range).
Proof. repeat split. Qed.

(** A start below [-len(view)] stays negative after the adjustment;
    added to the view's start it then addresses the pointee before
    the view: on the view [2, 5), a write to [-4:] replaces the
    pointee's bytes [1, 5). *)
Lemma setitem_negative_start_underflow :
  let self := __init__ buf10 (Some 2) (Some 5) in
  getslice self (Some (-4)) None buf10 = [12; 13; 14]
  /\ __setitem__ self (Slice (Some (-4)) None) (Bytes [1; 2; 3; 4]) buf10
     = ([10; 1; 2; 3; 4; 15; 16; 17; 18; 19], Return tt).
Proof. repeat split. Qed.

End BoundedView.

(** ** Field writes and the length of the buffer *)

Section FieldWrites.

Import Misc.

(** C9 (amended): [StructNoPointers] has no length check of its own;
    what a write of field [i] with a byte sequence [data] of another
    length than [SIGNATURE[i]] does depends on the buffer.  On a
    [bytearray] as long as the signature the write succeeds: the bytes
    of the field's range are replaced by [data], the bytes before and
    after it are kept, and the buffer's length changes by
    [len data - SIGNATURE[i]], so it is kept exactly when [data] is as
    wide as the field.  On a [bytearray_ptr] view as long as the
    signature, and for a field that is not empty, the write raises the
    view's length TypeError and the pointee is as it was. *)
Theorem set_field_length_check (SIGNATURE : list Z) (i : nat) (w : Z)
    (data : list Z) :
  Forall (fun w => 0 <= w) SIGNATURE ->
  SIGNATURE !! i = Some w ->
  let a := Py.sum (take i SIGNATURE) in
  (forall ba,
      Py.len ba = Py.sum SIGNATURE ->
      forallb Py.is_byte data = true ->
      let ba' :=
        take (Z.to_nat a) ba ++ data ++ drop (Z.to_nat (a + w)) ba in
      StructNoPointers.set_field SIGNATURE (Z.of_nat i) data ba
      = (ba', Return tt)
      /\ Py.len ba' = Py.len ba - w + Py.len data
      /\ (Py.len ba' = Py.len ba <-> Py.len data = w))
  /\ (forall view pointee,
        0 <= bytearray_ptr.slice_start view ->
        bytearray_ptr.slice_stop view <= Py.len pointee ->
        bytearray_ptr.slice_stop view - bytearray_ptr.slice_start view
        = Py.sum SIGNATURE ->
        0 < w ->
        Py.len data <> w ->
        set_field_through_view SIGNATURE (Z.of_nat i) data view pointee
        = (pointee, Raise bytearray_ptr.length_changed)).
Proof.
  intros Hpos Hw a. split.
  - intros ba Hlen Hbytes. now apply set_field_bytearray.
  - intros view pointee HS HE Hsize Hw0 Hne.
    destruct (field_range_bounds _ _ _ Hpos Hw) as (Ha & _ & Hend).
    fold a in Ha, Hend.
    unfold set_field_through_view.
    rewrite (get_slicers_in_range _ _ _ Hw). fold a.
    assert (Hn : bytearray_ptr.__len__ view pointee = Py.sum SIGNATURE).
    { rewrite len_view by lia. exact Hsize. }
    assert (Hor : Py.or_ (Some a) 0 = a).
    { cbn. destruct (Z.eqb_spec a 0); congruence. }
    apply setitem_length_mismatch; try lia.
    unfold bytearray_ptr.getslice, Py.getslice_opt.
    cbn [default from_option id].
    rewrite length_getslice_in_range;
      [lia | lia | fold (bytearray_ptr.__len__ view pointee); lia].
Qed.

Lemma set_field_length_check_witness :
  (StructNoPointers.set_field [4; 4; 4] 1 [1; 2; 3; 4; 5] (replicate 12 0)
   = ([0; 0; 0; 0; 1; 2; 3; 4; 5; 0; 0; 0; 0], Return tt)
   /\ Py.len [0; 0; 0; 0; 1; 2; 3; 4; 5; 0; 0; 0; 0]
      = Py.len (replicate 12 0) - 4 + Py.len [1; 2; 3; 4; 5])
  /\ set_field_through_view [4; 4; 4] 1 [1; 2; 3; 4; 5]
       (bytearray_ptr.__init__ (replicate 20 0) (Some 3) (Some 15))
       (replicate 20 0)
     = (replicate 20 0, Raise bytearray_ptr.length_changed).
Proof.
  destruct (set_field_length_check [4; 4; 4] 1 4 [1; 2; 3; 4; 5])
    as [Hplain Hview];
    [repeat constructor; lia | reflexivity |].
  split.
  - destruct (Hplain (replicate 12 0)) as (Hset & Hlen & _);
      [reflexivity | reflexivity |].
    exact (conj Hset Hlen).
  - apply Hview; vm_compute; congruence.
Defined.

End FieldWrites.

(** * Further properties *)

(** ** Setters of the family descriptor, composed *)

Section FamilySetters.

Import Family.

(** X1: [genl_family_set_id] and [genl_family_set_name] commute; after
    both, [ce_mask] is the old mask with bits 0x01 and 0x02 set. *)
Theorem genl_family_setters_commute (family : genl_family) (v : Z)
    (n : string) :
  genl_family_set_id (genl_family_set_name family n) v
  = genl_family_set_name (genl_family_set_id family v) n
  /\ ce_mask (genl_family_set_id (genl_family_set_name family n) v)
     = Z.lor (ce_mask family) 0x03.
Proof.
  unfold genl_family_set_id, genl_family_set_name, assign_ce_mask,
    assign_gf_id, assign_gf_name, FAMILY_ATTR_ID, FAMILY_ATTR_NAME.
  cbn. rewrite <- !Z.lor_assoc. split; reflexivity.
Qed.

(** X2: a second [genl_family_set_id] overwrites the first and leaves
    the mask as the first left it, and likewise for
    [genl_family_set_name]; [genl_family_set_name] does not change what
    [genl_family_get_id] returns. *)
Theorem genl_family_setters_overwrite (GENL_ID_GENERATE : Z)
    (family : genl_family) (v w : Z) (n m : string) :
  genl_family_set_id (genl_family_set_id family v) w
  = genl_family_set_id family w
  /\ genl_family_set_name (genl_family_set_name family n) m
     = genl_family_set_name family m
  /\ genl_family_get_id GENL_ID_GENERATE (genl_family_set_name family n)
     = genl_family_get_id GENL_ID_GENERATE family.
Proof.
  unfold genl_family_set_id, genl_family_set_name, assign_ce_mask,
    assign_gf_id, assign_gf_name, FAMILY_ATTR_ID, FAMILY_ATTR_NAME.
  cbn. rewrite <- !Z.lor_assoc. cbn [Z.lor Pos.lor].
  split; [reflexivity|]. split; [reflexivity|].
  unfold genl_family_get_id, FAMILY_ATTR_ID. cbn [ce_mask gf_id].
  rewrite !land_1_testbit, Z.lor_spec, testbit_2. cbn.
  now rewrite orb_false_r.
Qed.

End FamilySetters.

(** ** Field ranges of a signature *)

Section FieldRanges.

Import Misc.StructNoPointers.

Lemma sum_snoc (l : list Z) (x : Z) : Py.sum (l ++ [x]) = Py.sum l + x.
Proof. induction l as [|y l IH]; cbn; lia. Qed.

Lemma sum_take_S (l : list Z) (i : nat) (w : Z) :
  l !! i = Some w -> Py.sum (take (S i) l) = Py.sum (take i l) + w.
Proof. intros H. rewrite (take_S_r _ _ _ H). apply sum_snoc. Qed.

(** X3: the ranges [_get_slicers] returns tile the buffer: field [i]
    runs from the sum of the widths before it to the sum of the widths
    up to it, so it ends where field [i + 1] starts, the first field
    starts at 0 and the last one ends at [sum(SIGNATURE)]. *)
Theorem get_slicers_tile (SIGNATURE : list Z) (i : nat) (w : Z) :
  SIGNATURE !! i = Some w ->
  _get_slicers SIGNATURE (Z.of_nat i)
  = Return (Py.sum (take i SIGNATURE), Py.sum (take (S i) SIGNATURE))
  /\ (forall w', SIGNATURE !! S i = Some w' ->
        _get_slicers SIGNATURE (Z.of_nat (S i))
        = Return (Py.sum (take (S i) SIGNATURE),
                  Py.sum (take (S i) SIGNATURE) + w'))
  /\ (i = 0%nat -> Py.sum (take i SIGNATURE) = 0)
  /\ (S i = length SIGNATURE ->
      Py.sum (take (S i) SIGNATURE) = Py.sum SIGNATURE).
Proof.
  intros Hw. split; [|split; [|split]].
  - rewrite (get_slicers_in_range _ _ _ Hw). now rewrite (sum_take_S _ _ _ Hw).
  - intros w' Hw'. apply (get_slicers_in_range _ _ _ Hw').
  - now intros ->.
  - intros ->. now rewrite firstn_all.
Qed.

Lemma get_slicers_tile_witness :
  _get_slicers [4; 2; 8] 1 = Return (4, 6)
  /\ _get_slicers [4; 2; 8] 2 = Return (6, 14).
Proof.
  destruct (get_slicers_tile [4; 2; 8] 1 2 eq_refl) as (H1 & H2 & _).
  split; [exact H1 | exact (H2 8 eq_refl)].
Defined.

(** X4: for an index outside [-len(SIGNATURE), len(SIGNATURE))
    [_get_slicers] raises IndexError; in particular every index does on
    an empty signature, index 0 included. *)
Theorem get_slicers_out_of_range (SIGNATURE : list Z) (index : Z) :
  index < - Py.len SIGNATURE \/ Py.len SIGNATURE <= index ->
  exists msg, _get_slicers SIGNATURE index = Raise (IndexError msg).
Proof.
  intros Hout. unfold _get_slicers, Py.getitem.
  pose proof (len_nonneg SIGNATURE) as Hn.
  destruct (Z.eqb_spec index 0) as [->|Hnz].
  - change (0 <? 0) with false. cbv iota.
    destruct (Z.leb_spec 0 0); [|lia].
    destruct (Z.ltb_spec 0 (Py.len SIGNATURE)); [lia|]. cbn. eauto.
  - destruct (Z.geb_spec index (Py.len SIGNATURE)); [eauto|].
    destruct (Z.ltb_spec index 0); [|lia].
    destruct (Z.leb_spec 0 (index + Py.len SIGNATURE)); [lia|].
    cbn. eauto.
Qed.

Lemma get_slicers_out_of_range_witness :
  (exists msg, _get_slicers [4; 4; 4] 3 = Raise (IndexError msg))
  /\ (exists msg, _get_slicers [] 0 = Raise (IndexError msg)).
Proof.
  split.
  - apply (get_slicers_out_of_range [4; 4; 4] 3). right. vm_compute.
    discriminate.
  - apply (get_slicers_out_of_range [] 0). right. vm_compute.
    discriminate.
Defined.

(** X5: a negative index counts from the end: for [1 <= k <=
    len(SIGNATURE)], [_get_slicers(-k)] is [_get_slicers(len - k)]. *)
Theorem get_slicers_negative (SIGNATURE : list Z) (k : Z) :
  1 <= k <= Py.len SIGNATURE ->
  _get_slicers SIGNATURE (- k)
  = _get_slicers SIGNATURE (Py.len SIGNATURE - k).
Proof.
  intros Hk.
  set (i := Z.to_nat (Py.len SIGNATURE - k)).
  assert (Hi : Py.len SIGNATURE - k = Z.of_nat i) by (unfold i; lia).
  destruct (lookup_lt_is_Some_2 SIGNATURE i) as [w Hw];
    [unfold Py.len in *; lia|].
  rewrite Hi, (get_slicers_in_range _ _ _ Hw).
  unfold _get_slicers, Py.getitem, Py.getslice_opt, Py.getslice.
  cbv [default from_option id].
  destruct (Z.eqb_spec (- k) 0); [lia|].
  destruct (Z.geb_spec (- k) (Py.len SIGNATURE)); [lia|].
  destruct (Z.ltb_spec (- k) 0); [|lia].
  destruct (Z.leb_spec 0 (- k + Py.len SIGNATURE)); [|lia].
  destruct (Z.ltb_spec (- k + Py.len SIGNATURE) (Py.len SIGNATURE)); [|lia].
  cbn [andb].
  replace (Z.to_nat (- k + Py.len SIGNATURE)) with i by lia.
  rewrite Hw. unfold Py.clamp.
  change (0 <? 0) with false. cbv iota.
  destruct (Z.ltb_spec (- k) 0); [|lia].
  rewrite (Z.min_l 0) by lia. rewrite Z.max_l by lia.
  replace (Z.to_nat (- k + Py.len SIGNATURE - 0)) with i by lia.
  reflexivity.
Qed.

Lemma get_slicers_negative_witness :
  _get_slicers [4; 2; 8] (- 1) = _get_slicers [4; 2; 8] (Py.len [4; 2; 8] - 1).
Proof. apply (get_slicers_negative [4; 2; 8] 1). vm_compute. split; discriminate. Defined.

(** Stripping zero bytes leaves nothing exactly when every byte is
    zero. *)
Lemma lstrip0_nil (l : list Z) :
  lstrip0 l = [] <-> Forall (fun c => c = 0) l.
Proof.
  induction l as [|c l IH]; [easy|].
  destruct c as [|p|p]; cbn.
  - rewrite IH. split; [now constructor | now inversion 1].
  - split; [discriminate | inversion 1; discriminate].
  - split; [discriminate | inversion 1; discriminate].
Qed.

Lemma lstrip0_zeros (l : list Z) :
  Forall (fun c => c = 0) (lstrip0 l) <-> Forall (fun c => c = 0) l.
Proof.
  induction l as [|c l IH]; [easy|].
  destruct c as [|p|p]; cbn; [|easy|easy].
  rewrite IH. split; [now constructor | now inversion 1].
Qed.

Lemma Forall_rev_zeros (l : list Z) :
  Forall (fun c => c = 0) (rev l) <-> Forall (fun c => c = 0) l.
Proof.
  rewrite !List.Forall_forall.
  split; intros H x Hx; apply H; [now apply in_rev in Hx | now apply in_rev].
Qed.

Lemma bool_false_zeros (ba : list Z) :
  __bool__ ba = false <-> Forall (fun c => c = 0) ba.
Proof.
  unfold __bool__, strip0. rewrite negb_involutive.
  rewrite <- lstrip0_zeros, <- Forall_rev_zeros, <- lstrip0_nil.
  destruct (lstrip0 (rev (lstrip0 ba))) as [|c l] eqn:E.
  - easy.
  - cbn [rev]. destruct (rev l ++ [c]) eqn:E'; [|easy].
    now apply app_eq_nil in E' as [_ ?].
Qed.

(** X6: a [StructNoPointers] instance is falsy exactly when every byte
    of its buffer is zero (the empty buffer included), and truthy
    exactly when some byte is not. *)
Theorem StructNoPointers_bool_spec (ba : list Z) :
  (__bool__ ba = false <-> Forall (fun c => c = 0) ba)
  /\ (__bool__ ba = true <-> Exists (fun c => c <> 0) ba).
Proof.
  pose proof (bool_false_zeros ba) as H.
  split; [exact H|].
  pose proof (Exists_Forall_neg (fun c : Z => c = 0) ba
                (fun c => Z.eq_decidable c 0)) as HE.
  split.
  - intros Ht. apply HE. intros Hall. apply H in Hall. congruence.
  - intros Hex. apply HE in Hex. destruct (__bool__ ba); [reflexivity|].
    exfalso. apply Hex. now apply H.
Qed.

End FieldRanges.

(** ** Hex dumps *)

Section HexDump.

Lemma hex_digit_inj (d d' : Z) :
  0 <= d < 16 -> 0 <= d' < 16 ->
  Py.hex_digit d = Py.hex_digit d' -> d = d'.
Proof.
  intros Hd Hd'.
  assert (Hc : forall x, 0 <= x < 16 ->
            x = 0 \/ x = 1 \/ x = 2 \/ x = 3 \/ x = 4 \/ x = 5 \/ x = 6
            \/ x = 7 \/ x = 8 \/ x = 9 \/ x = 10 \/ x = 11 \/ x = 12
            \/ x = 13 \/ x = 14 \/ x = 15) by (intros; lia).
  destruct (Hc d Hd) as [->|[->|[->|[->|[->|[->|[->|[->|[->|[->|[->|[->|
    [->|[->|[->| ->]]]]]]]]]]]]]]];
  destruct (Hc d' Hd') as [->|[->|[->|[->|[->|[->|[->|[->|[->|[->|[->|[->|
    [->|[->|[->| ->]]]]]]]]]]]]]]];
  cbn; intros H; (reflexivity || discriminate H).
Qed.

Lemma format_02x_inj (c c' : Z) :
  Py.is_byte c = true -> Py.is_byte c' = true ->
  Py.format_02x c = Py.format_02x c' -> c = c'.
Proof.
  unfold Py.is_byte. intros Hc Hc' [= H1 H2].
  apply andb_true_iff in Hc as [?%Z.leb_le ?%Z.ltb_lt].
  apply andb_true_iff in Hc' as [?%Z.leb_le ?%Z.ltb_lt].
  apply hex_digit_inj in H1;
    [|Z.to_euclidean_division_equations; lia..].
  apply hex_digit_inj in H2;
    [|Z.to_euclidean_division_equations; lia..].
  Z.to_euclidean_division_equations. lia.
Qed.

Lemma hexdump_cons2 (c c' : Z) (rest : list Z) :
  Py.hexdump (c :: c' :: rest)
  = String (Py.hex_digit (c / 16))
      (String (Py.hex_digit (c mod 16))
         (String " " (Py.hexdump (c' :: rest)))).
Proof. reflexivity. Qed.

Lemma hexdump_length (ba : list Z) :
  String.length (Py.hexdump ba) = (3 * length ba - 1)%nat.
Proof.
  induction ba as [|c [|c' rest] IH]; [reflexivity|reflexivity|].
  rewrite hexdump_cons2. cbn [String.length]. rewrite IH.
  cbn [length]. lia.
Qed.

Lemma hexdump_inj (ba ba' : list Z) :
  forallb Py.is_byte ba = true -> forallb Py.is_byte ba' = true ->
  Py.hexdump ba = Py.hexdump ba' -> ba = ba'.
Proof.
  revert ba'. induction ba as [|c [|c2 rest] IH]; intros ba' Hb Hb' H.
  - destruct ba' as [|c' [|c2' rest']]; [reflexivity|discriminate..].
  - destruct ba' as [|c' [|c2' rest']]; [discriminate| |discriminate].
    cbn in Hb, Hb'. rewrite andb_true_r in Hb, Hb'.
    f_equal. now apply format_02x_inj.
  - destruct ba' as [|c' [|c2' rest']]; [discriminate|discriminate|].
    rewrite !hexdump_cons2 in H.
    apply andb_true_iff in Hb as [Hc Hb].
    apply andb_true_iff in Hb' as [Hc' Hb'].
    injection H as H1 H2 H3.
    f_equal.
    + apply format_02x_inj; [assumption..|]. unfold Py.format_02x.
      now rewrite H1, H2.
    + now apply IH.
Qed.

(** X7: the hex dump of a buffer of [n] bytes has three characters per
    byte less the last blank ([3n - 1] characters, none for the empty
    buffer), and two buffers with the same dump are equal. *)
Theorem StructNoPointers_str_spec (ba ba' : list Z) :
  forallb Py.is_byte ba = true -> forallb Py.is_byte ba' = true ->
  String.length (Misc.StructNoPointers.__str__ ba)
  = (3 * length ba - 1)%nat
  /\ (Misc.StructNoPointers.__str__ ba = Misc.StructNoPointers.__str__ ba'
      -> ba = ba').
Proof.
  intros Hb Hb'. split; [apply hexdump_length|].
  now apply hexdump_inj.
Qed.

Lemma StructNoPointers_str_spec_witness :
  Misc.StructNoPointers.__str__ [0; 171; 16] = "00 ab 10"
  /\ String.length (Misc.StructNoPointers.__str__ [0; 171; 16]) = 8%nat.
Proof.
  destruct (StructNoPointers_str_spec [0; 171; 16] [0; 171; 16] eq_refl eq_refl)
    as [Hlen _].
  split; [reflexivity | exact Hlen].
Defined.

End HexDump.

(** ** More on the credentials structure *)

Section CredentialsMore.

Import Misc.

Variable big_endian : bool.

Abbreviation enc32 := (Ctypes.native_bytes big_endian 4).

Lemma or_some (v : Z) : Py.or_ (Some v) 0 = v.
Proof. cbn. destruct (Z.eqb_spec v 0); congruence. Qed.

(** [None] is stored as 0. *)
Lemma setter_none (index : Z) (ba : list Z) :
  ucred.setter big_endian index None ba
  = ucred.setter big_endian index (Some 0) ba.
Proof. reflexivity. Qed.

Lemma setter_length (i : nat) (index value : Z) (ba : list Z) :
  index = Z.of_nat i -> length ba = 12%nat -> (i < 3)%nat ->
  length (fst (ucred.setter big_endian index (Some value) ba)) = 12%nat.
Proof.
  intros Hindex Hlen Hi.
  rewrite (setter_spec big_endian i index value ba Hindex Hlen Hi).
  cbn [fst]. rewrite !length_app, length_take, length_drop,
    length_native_bytes. lia.
Qed.

Lemma setter_then_getter (i : nat) (index value : Z) (ba : list Z) :
  index = Z.of_nat i -> length ba = 12%nat -> (i < 3)%nat ->
  snd (ucred.getter big_endian index
         (fst (ucred.setter big_endian index (Some value) ba)))
  = Return (value mod 2 ^ 32).
Proof.
  intros Hindex Hlen Hi.
  rewrite (getter_spec big_endian i index _ Hindex
             (setter_length i index value ba Hindex Hlen Hi) Hi).
  rewrite (setter_spec big_endian i index value ba Hindex Hlen Hi).
  cbn [fst snd].
  rewrite drop_app_length' by (rewrite length_take; lia).
  rewrite take_app_length' by (now rewrite length_native_bytes).
  now rewrite native_value_native_bytes.
Qed.

(** X8: a setter keeps the low 32 bits of any int it is given, and
    stores 0 for [None]: on a twelve-byte instance the getter of the
    same field then returns the value modulo [2 ** 32] (so [-1] reads
    back as [4294967295]), and the buffer is still twelve bytes. *)
Theorem ucred_setter_wraps (i : nat) (index value : Z) (ba : list Z) :
  index = Z.of_nat i -> length ba = 12%nat -> (i < 3)%nat ->
  let ba' := fst (ucred.setter big_endian index (Some value) ba) in
  let ba0 := fst (ucred.setter big_endian index None ba) in
  snd (ucred.setter big_endian index (Some value) ba) = Return tt
  /\ length ba' = 12%nat
  /\ snd (ucred.getter big_endian index ba') = Return (value mod 2 ^ 32)
  /\ snd (ucred.getter big_endian index ba0) = Return 0.
Proof.
  intros Hindex Hlen Hi ba' ba0.
  split; [now rewrite (setter_spec big_endian i index value ba)|].
  split; [now apply (setter_length i)|].
  split; [now apply (setter_then_getter i)|].
  unfold ba0. rewrite setter_none.
  now rewrite (setter_then_getter i index 0 ba).
Qed.

(** X9: a setter leaves the other two fields as they were: for two
    different fields of a twelve-byte instance, the getter of one
    returns the same before and after the setter of the other. *)
Theorem ucred_setter_frame (i j : nat) (index index' value : Z)
    (ba : list Z) :
  index = Z.of_nat i -> index' = Z.of_nat j ->
  length ba = 12%nat -> (i < 3)%nat -> (j < 3)%nat -> i <> j ->
  snd (ucred.getter big_endian index'
         (fst (ucred.setter big_endian index (Some value) ba)))
  = snd (ucred.getter big_endian index' ba).
Proof.
  intros Hindex Hindex' Hlen Hi Hj Hij.
  rewrite (getter_spec big_endian j index' _ Hindex'
             (setter_length i index value ba Hindex Hlen Hi) Hj).
  rewrite (getter_spec big_endian j index' ba Hindex' Hlen Hj).
  rewrite (setter_spec big_endian i index value ba Hindex Hlen Hi).
  cbn [fst snd].
  destruct (four_bytes _ (length_native_bytes big_endian 4 value))
    as (v0 & v1 & v2 & v3 & ->).
  destruct (twelve_bytes ba Hlen)
    as (b0 & b1 & b2 & b3 & b4 & b5 & b6 & b7 & b8 & b9 & b10 & b11 & ->).
  do 3 (destruct i as [|i]; [do 3 (destruct j as [|j];
          [reflexivity || congruence|]); lia|]).
  lia.
Qed.

(** X10: setters of two different fields commute, and a second call of
    the same setter overwrites the first. *)
Theorem ucred_setters_compose (i j : nat) (index index' v w : Z)
    (ba : list Z) :
  index = Z.of_nat i -> index' = Z.of_nat j ->
  length ba = 12%nat -> (i < 3)%nat -> (j < 3)%nat ->
  (i <> j ->
   (ucred.setter big_endian index (Some v) >>-
    ucred.setter big_endian index' (Some w)) ba
   = (ucred.setter big_endian index' (Some w) >>-
      ucred.setter big_endian index (Some v)) ba)
  /\ (ucred.setter big_endian index (Some v) >>-
      ucred.setter big_endian index (Some w)) ba
     = ucred.setter big_endian index (Some w) ba.
Proof.
  intros Hindex Hindex' Hlen Hi Hj.
  pose proof (setter_length i index v ba Hindex Hlen Hi) as Li.
  pose proof (setter_length j index' w ba Hindex' Hlen Hj) as Lj.
  unfold bind.
  rewrite (setter_spec big_endian i index v ba Hindex Hlen Hi) in *.
  rewrite (setter_spec big_endian j index' w ba Hindex' Hlen Hj) in *.
  rewrite (setter_spec big_endian i index w ba Hindex Hlen Hi).
  cbn [fst] in Li, Lj.
  rewrite (setter_spec big_endian j index' w _ Hindex' Li Hj).
  rewrite (setter_spec big_endian i index v _ Hindex Lj Hi).
  rewrite (setter_spec big_endian i index w _ Hindex Li Hi).
  destruct (four_bytes _ (length_native_bytes big_endian 4 v))
    as (v0 & v1 & v2 & v3 & ->).
  destruct (four_bytes _ (length_native_bytes big_endian 4 w))
    as (w0 & w1 & w2 & w3 & ->).
  destruct (twelve_bytes ba Hlen)
    as (b0 & b1 & b2 & b3 & b4 & b5 & b6 & b7 & b8 & b9 & b10 & b11 & ->).
  split.
  - intros Hij.
    do 3 (destruct i as [|i]; [do 3 (destruct j as [|j];
            [reflexivity || congruence|]); lia|]).
    lia.
  - do 3 (destruct i as [|i]; [reflexivity|]). lia.
Qed.

End CredentialsMore.

Lemma ucred_setter_wraps_witness :
  snd (Misc.ucred.getter false 1
         (fst (Misc.ucred.setter false 1 (Some (- 1)) (replicate 12 0))))
  = Return 4294967295.
Proof.
  destruct (ucred_setter_wraps false 1 1 (- 1) (replicate 12 0))
    as (_ & _ & H & _); [reflexivity | reflexivity | lia |].
  exact H.
Defined.

Lemma ucred_setter_frame_witness :
  snd (Misc.ucred.getter false 2
         (fst (Misc.ucred.setter false 0 (Some 7)
                 [1; 0; 0; 0; 2; 0; 0; 0; 3; 0; 0; 0])))
  = Return 3.
Proof.
  rewrite (ucred_setter_frame false 0 2 0 2 7
             [1; 0; 0; 0; 2; 0; 0; 0; 3; 0; 0; 0]);
    [reflexivity | reflexivity | reflexivity | reflexivity | lia | lia | lia].
Defined.

Lemma ucred_setters_compose_witness :
  (Misc.ucred.setter true 0 (Some 5) >>- Misc.ucred.setter true 2 (Some 9))
    (replicate 12 0)
  = (Misc.ucred.setter true 2 (Some 9) >>- Misc.ucred.setter true 0 (Some 5))
      (replicate 12 0).
Proof.
  destruct (ucred_setters_compose true 0 2 0 2 5 9 (replicate 12 0))
    as [H _]; [reflexivity | reflexivity | reflexivity | lia | lia |].
  apply H. lia.
Defined.

(** ** Truth value and repr of the credentials structure *)

Section CredentialsObject.

Import Misc.

Variable big_endian : bool.

Lemma is_byte_bounds (c : Z) : Py.is_byte c = true -> 0 <= c < 256.
Proof.
  unfold Py.is_byte. intros [?%Z.leb_le ?%Z.ltb_lt]%andb_true_iff. lia.
Qed.

(** Four bytes hold the value 0 exactly when each of them is 0. *)
Lemma native_value_zero (b0 b1 b2 b3 : Z) :
  0 <= b0 < 256 -> 0 <= b1 < 256 -> 0 <= b2 < 256 -> 0 <= b3 < 256 ->
  Ctypes.native_value big_endian [b0; b1; b2; b3] = 0
  <-> b0 = 0 /\ b1 = 0 /\ b2 = 0 /\ b3 = 0.
Proof.
  intros H0 H1 H2 H3. unfold Ctypes.native_value.
  destruct big_endian; cbn [rev app Ctypes.le_value]; lia.
Qed.

(** X11: a twelve-byte [ucred] instance is falsy exactly when its
    [pid], [uid] and [gid] are all 0. *)
Theorem ucred_bool_spec (ba : list Z) :
  length ba = 12%nat -> forallb Py.is_byte ba = true ->
  StructNoPointers.__bool__ ba = false
  <-> (snd (ucred.pid big_endian ba) = Return 0
       /\ snd (ucred.uid big_endian ba) = Return 0
       /\ snd (ucred.gid big_endian ba) = Return 0).
Proof.
  intros Hlen Hb. rewrite bool_false_zeros.
  unfold ucred.pid, ucred.uid, ucred.gid.
  rewrite (getter_spec big_endian 0 0 ba eq_refl Hlen) by lia.
  rewrite (getter_spec big_endian 1 1 ba eq_refl Hlen) by lia.
  rewrite (getter_spec big_endian 2 2 ba eq_refl Hlen) by lia.
  destruct (twelve_bytes ba Hlen)
    as (b0 & b1 & b2 & b3 & b4 & b5 & b6 & b7 & b8 & b9 & b10 & b11 & ->).
  cbn [forallb] in Hb.
  repeat (apply andb_true_iff in Hb as [?%is_byte_bounds Hb]).
  cbn [snd take drop Nat.mul Nat.add].
  pose proof (native_value_zero b0 b1 b2 b3) as P.
  pose proof (native_value_zero b4 b5 b6 b7) as U.
  pose proof (native_value_zero b8 b9 b10 b11) as G.
  rewrite !Forall_cons, Forall_nil.
  split.
  - intros (-> & -> & -> & -> & -> & -> & -> & -> & -> & -> & -> & -> & _).
    repeat split; f_equal; [apply P | apply U | apply G]; auto; lia.
  - intros ([= Hp] & [= Hu] & [= Hg]).
    apply P in Hp; [|lia..]. apply U in Hu; [|lia..].
    apply G in Hg; [|lia..]. intuition.
Qed.

(** X12: the repr of a twelve-byte [ucred] instance shows [pid] and,
    both after [uid=] and after [gid=], the value of [uid]; it does not
    depend on [gid]: after any [gid] setter the repr is the same. *)
Theorem ucred_repr_ignores_gid (ba : list Z) (g : Z) :
  length ba = 12%nat ->
  (exists p u,
      snd (ucred.pid big_endian ba) = Return p
      /\ snd (ucred.uid big_endian ba) = Return u
      /\ snd (ucred.__repr__ big_endian ba)
         = Return (String.append "<libnl.misc.ucred pid="
                    (String.append (Py.str_int p)
                    (String.append " uid="
                    (String.append (Py.str_int u)
                    (String.append " gid="
                    (String.append (Py.str_int u) ">")))))))
  /\ snd (ucred.__repr__ big_endian
            (fst (ucred.set_gid big_endian (Some g) ba)))
     = snd (ucred.__repr__ big_endian ba).
Proof.
  intros Hlen.
  assert (Hrepr : forall ba0, length ba0 = 12%nat ->
            snd (ucred.__repr__ big_endian ba0)
            = let p := Ctypes.native_value big_endian (take 4 ba0) in
              let u := Ctypes.native_value big_endian
                         (take 4 (drop 4 ba0)) in
              Return (String.append "<libnl.misc.ucred pid="
                        (String.append (Py.str_int p)
                        (String.append " uid="
                        (String.append (Py.str_int u)
                        (String.append " gid="
                        (String.append (Py.str_int u) ">"))))))).
  { intros ba0 Hlen0.
    unfold ucred.__repr__, bind, ucred.pid, ucred.uid.
    rewrite (getter_spec big_endian 0 0 ba0 eq_refl Hlen0) by lia.
    cbv beta iota.
    rewrite (getter_spec big_endian 1 1 ba0 eq_refl Hlen0) by lia.
    cbv beta iota.
    rewrite (getter_spec big_endian 1 1 ba0 eq_refl Hlen0) by lia.
    reflexivity. }
  split.
  - eexists _, _. unfold ucred.pid, ucred.uid.
    rewrite (getter_spec big_endian 0 0 ba eq_refl Hlen) by lia.
    rewrite (getter_spec big_endian 1 1 ba eq_refl Hlen) by lia.
    split; [reflexivity|]. split; [reflexivity|].
    now rewrite Hrepr.
  - rewrite (Hrepr ba Hlen).
    unfold ucred.set_gid.
    rewrite (Hrepr _ (setter_length big_endian 2 2 g ba eq_refl Hlen
                        ltac:(lia))).
    rewrite (setter_spec big_endian 2 2 g ba eq_refl Hlen) by lia.
    destruct (four_bytes _ (length_native_bytes big_endian 4 g))
      as (g0 & g1 & g2 & g3 & ->).
    destruct (twelve_bytes ba Hlen)
      as (b0 & b1 & b2 & b3 & b4 & b5 & b6 & b7 & b8 & b9 & b10 & b11 & ->).
    reflexivity.
Qed.

End CredentialsObject.

Lemma ucred_bool_spec_witness :
  Misc.StructNoPointers.__bool__ (replicate 12 0) = false
  <-> (snd (Misc.ucred.pid true (replicate 12 0)) = Return 0
       /\ snd (Misc.ucred.uid true (replicate 12 0)) = Return 0
       /\ snd (Misc.ucred.gid true (replicate 12 0)) = Return 0).
Proof. apply (ucred_bool_spec true (replicate 12 0)); reflexivity. Defined.

Lemma ucred_repr_ignores_gid_witness :
  snd (Misc.ucred.__repr__ false
         (fst (Misc.ucred.set_gid false (Some 300)
                 [100; 0; 0; 0; 200; 0; 0; 0; 0; 0; 0; 0])))
  = Return "<libnl.misc.ucred pid=100 uid=200 gid=200>".
Proof.
  destruct (ucred_repr_ignores_gid false
              [100; 0; 0; 0; 200; 0; 0; 0; 0; 0; 0; 0] 300 eq_refl)
    as [_ H].
  rewrite H. reflexivity.
Defined.

(** ** Raw bytes and tokens of a structure with pointers *)

Section RawAndTokens.

Import Misc.StructWithPointers.

(** X13: when every slot is a [bytes] object and none of them is a key
    of the side table (an empty table, say), the [bytearray] property
    returns the raw bytes of [__bytes__]; and [__bytes__] is the same
    whatever the side table holds. *)
Theorem bytearray_without_tokens_is_raw ptrs ptrs'
    (slots : list (list Z)) :
  Forall (fun c => ptrs !! c = None) slots ->
  let self := {| bytearrays := PyBytes <$> slots; pointers := ptrs |} in
  bytearray self = Return (__bytes__ self)
  /\ __bytes__ {| bytearrays := PyBytes <$> slots; pointers := ptrs' |}
     = __bytes__ self.
Proof.
  intros Hfree self. split; [|reflexivity].
  unfold self. rewrite bytearray_bytes_slots.
  unfold __bytes__. cbn [bytearrays].
  f_equal. induction Hfree as [|c rest Hc _ IH]; [reflexivity|].
  simpl. unfold substituted at 1. rewrite Hc. simpl. f_equal. exact IH.
Qed.

Lemma bytearray_without_tokens_is_raw_witness :
  bytearray {| bytearrays := [PyBytes [1; 2]; PyBytes []; PyBytes [3]];
               pointers := {[ [9] := [7; 7] ]} |}
  = Return [1; 2; 3].
Proof.
  destruct (bytearray_without_tokens_is_raw {[ [9] := [7; 7] ]} ∅
              [[1; 2]; []; [3]]) as [H _].
  - repeat constructor.
  - exact H.
Defined.

Lemma take_le_bytes (k n : nat) (v : Z) :
  (k <= n)%nat -> take k (Ctypes.le_bytes n v) = Ctypes.le_bytes k v.
Proof.
  revert n v. induction k as [|k IH]; intros n v Hk; [reflexivity|].
  destruct n as [|n]; [lia|]. cbn. f_equal. apply IH. lia.
Qed.

Lemma le_bytes_period (k : nat) (v m : Z) :
  Ctypes.le_bytes k (v + m * 256 ^ Z.of_nat k) = Ctypes.le_bytes k v.
Proof.
  revert v m. induction k as [|k IH]; intros v m; [reflexivity|].
  cbn [Ctypes.le_bytes].
  rewrite Nat2Z.inj_succ, Z.pow_succ_r by lia.
  replace (v + m * (256 * 256 ^ Z.of_nat k))
    with (v + (m * 256 ^ Z.of_nat k) * 256) by lia.
  rewrite Z.mod_add, Z.div_add by lia. f_equal. apply IH.
Qed.

Lemma le_bytes_app (n m : nat) (v : Z) :
  Ctypes.le_bytes (n + m) v
  = Ctypes.le_bytes n v ++ Ctypes.le_bytes m (v / 256 ^ Z.of_nat n).
Proof.
  revert v. induction n as [|n IH]; intros v.
  - cbn. now rewrite Z.div_1_r.
  - cbn [Nat.add Ctypes.le_bytes app]. rewrite IH. do 2 f_equal.
    rewrite Nat2Z.inj_succ, Z.pow_succ_r by lia.
    now rewrite Z.div_div by lia.
Qed.

Lemma candidate_content (big_endian : bool) (w v : Z) :
  0 <= w <= 8 ->
  content (candidate big_endian w v)
  = take (Z.to_nat w) (Ctypes.native_bytes big_endian 8 v).
Proof.
  intros Hw. unfold candidate, content, Py.getslice_opt,
    Ctypes.c_uint64_bytes.
  cbv [default from_option id].
  rewrite getslice_in_range
    by (unfold Py.len; rewrite ?length_native_bytes; lia).
  now rewrite Z.sub_0_r.
Qed.

(** X14: for a pointer width [w] of at most eight bytes, the candidate
    token of a draw [v] has exactly [w] bytes, each in [range(256)].
    On a little-endian platform it holds [v mod 2 ** (8 * w)], so the
    tokens repeat with that period: the top of the range drawn from,
    [2 ** (8 * w)], gives the same token as 0. *)
Theorem candidate_token (big_endian : bool) (w v : Z) :
  0 <= w <= 8 ->
  length (content (candidate big_endian w v)) = Z.to_nat w
  /\ forallb Py.is_byte (content (candidate big_endian w v)) = true
  /\ Ctypes.le_value (content (candidate false w v)) = v mod 256 ^ w
  /\ content (candidate false w (v + 256 ^ w))
     = content (candidate false w v).
Proof.
  intros Hw. rewrite !candidate_content by assumption.
  split; [|split; [|split]].
  - rewrite length_take, length_native_bytes. lia.
  - apply forallb_forall. intros x Hx.
    pose proof (native_bytes_is_byte big_endian 8 v) as Hb.
    rewrite forallb_forall in Hb. apply Hb.
    apply list_elem_of_In.
    assert (Hx' : x ∈ take (Z.to_nat w) (Ctypes.native_bytes big_endian 8 v))
      by (first [exact Hx | now apply list_elem_of_In]).
    apply elem_of_take in Hx' as (i & Hi & _).
    eapply list_elem_of_lookup_2. exact Hi.
  - unfold Ctypes.native_bytes. rewrite take_le_bytes by lia.
    rewrite le_value_le_bytes. now rewrite Z2Nat.id by lia.
  - unfold Ctypes.native_bytes. rewrite !take_le_bytes by lia.
    pose proof (le_bytes_period (Z.to_nat w) v 1) as P.
    rewrite Z2Nat.id, Z.mul_1_l in P by lia. exact P.
Qed.

Lemma candidate_token_witness :
  length (content (candidate true 4 258)) = Z.to_nat 4
  /\ Ctypes.le_value (content (candidate false 4 (2 ^ 32 + 5))) = 5
  /\ content (candidate false 8 (0 + 256 ^ 8)) = replicate 8 0.
Proof.
  destruct (candidate_token true 4 258) as (H1 & _); [lia|].
  destruct (candidate_token false 4 (2 ^ 32 + 5)) as (_ & _ & H2 & _);
    [lia|].
  destruct (candidate_token false 8 0) as (_ & _ & _ & H3); [lia|].
  split; [exact H1|]. split; [exact H2 | exact H3].
Defined.

(** X15: on a big-endian platform with four-byte pointers the token is
    the high half of the eight-byte integer: every draw below
    [2 ** 32] gives the same token of four zero bytes, and the top of
    the range, [2 ** 32], gives [00 00 00 01]. *)
Theorem candidate_big_endian_4 (v : Z) :
  0 <= v < 2 ^ 32 ->
  candidate true 4 v = PyByteArray [0; 0; 0; 0]
  /\ candidate true 4 (2 ^ 32) = PyByteArray [0; 0; 0; 1].
Proof.
  intros Hv. split; [|reflexivity].
  unfold candidate, Ctypes.c_uint64_bytes, Ctypes.native_bytes.
  change 8%nat with (4 + 4)%nat. rewrite le_bytes_app.
  change (256 ^ Z.of_nat 4) with (2 ^ 32).
  rewrite Z.div_small by assumption.
  change (Ctypes.le_bytes 4 0) with [0; 0; 0; 0].
  rewrite rev_app_distr. change (rev [0; 0; 0; 0]) with [0; 0; 0; 0].
  unfold Py.getslice_opt. cbv [default from_option id].
  rewrite getslice_in_range;
    [reflexivity | lia |].
  unfold Py.len. rewrite length_app, length_rev, length_le_bytes.
  cbn. lia.
Qed.

Lemma candidate_big_endian_4_witness :
  candidate true 4 1 = candidate true 4 4294967295.
Proof.
  destruct (candidate_big_endian_4 1) as [H1 _]; [lia|].
  destruct (candidate_big_endian_4 4294967295) as [H2 _]; [lia|].
  now rewrite H1, H2.
Defined.

End RawAndTokens.

(** ** More on bounded views *)

Section BoundedViewMore.

Import Misc.bytearray_ptr.

Ltac split_tests :=
  repeat match goal with
    | |- context [?a <? ?b] => destruct (Z.ltb_spec a b)
    | |- context [?a =? ?b] => destruct (Z.eqb_spec a b)
    | |- context [?a >=? ?b] => destruct (Z.geb_spec a b)
    | |- context [?a <=? ?b] => destruct (Z.leb_spec a b)
    end.

(** X16: a view built with offsets that are absent or at least
    [-len(pointee)] reads exactly the Python slice
    [pointee[start:stop]]: negative offsets count from the end, a stop
    beyond the end is cut, and the defaults give the whole buffer. *)
Theorem init_reads_slice (pointee : list Z) (start stop : option Z) :
  match start with Some a => - Py.len pointee <= a | None => True end ->
  match stop with Some b => - Py.len pointee <= b | None => True end ->
  copy (__init__ pointee start stop) pointee
  = Py.getslice_opt pointee start stop
  /\ copy (__init__ pointee None None) pointee = pointee.
Proof.
  pose proof (len_nonneg pointee) as Hn.
  assert (Hgen : forall start stop,
            match start with
            | Some a => - Py.len pointee <= a | None => True end ->
            match stop with
            | Some b => - Py.len pointee <= b | None => True end ->
            copy (__init__ pointee start stop) pointee
            = Py.getslice_opt pointee start stop).
  { clear start stop. intros start stop Ha Hb.
    unfold copy, window, Py.getslice_opt, Py.getslice, __init__.
    cbn [slice_start slice_stop].
    f_equal; [|f_equal];
      destruct start as [a|], stop as [b|];
      cbv [default from_option id Py.or_ Py.clamp];
      split_tests; lia. }
  intros Ha Hb. split; [now apply Hgen|].
  rewrite (Hgen None None I I). unfold Py.getslice_opt.
  cbv [default from_option id].
  rewrite getslice_in_range by lia.
  rewrite Z.sub_0_r. cbn [Z.to_nat drop]. apply firstn_all2.
  unfold Py.len. lia.
Qed.

Lemma init_reads_slice_witness :
  copy (__init__ buf10 (Some (- 3)) (Some 20)) buf10 = [17; 18; 19]
  /\ copy (__init__ buf10 (Some 4) (Some (- 4))) buf10 = [14; 15].
Proof.
  destruct (init_reads_slice buf10 (Some (- 3)) (Some 20)) as [H1 _];
    [vm_compute; discriminate | vm_compute; discriminate |].
  destruct (init_reads_slice buf10 (Some 4) (Some (- 4))) as [H2 _];
    [vm_compute; discriminate | vm_compute; discriminate |].
  split; [exact H1 | exact H2].
Defined.

(** X17: the bounds of a view are fixed when it is built: bytes
    appended to the pointee afterwards are not seen through a view
    whose bounds lie inside the pointee, not even through a view built
    with the default bounds. *)
Theorem view_fixed_under_growth (self : t) (pointee extra : list Z) :
  0 <= slice_start self <= slice_stop self ->
  slice_stop self <= Py.len pointee ->
  copy self (pointee ++ extra) = copy self pointee
  /\ __len__ self (pointee ++ extra) = __len__ self pointee
  /\ copy (__init__ pointee None None) (pointee ++ extra) = pointee.
Proof.
  intros HS HE.
  assert (Hgen : forall S E, 0 <= S <= E -> E <= Py.len pointee ->
            Py.getslice (pointee ++ extra) S E = Py.getslice pointee S E).
  { intros S E H1 H2.
    rewrite !getslice_in_range
      by (unfold Py.len in *; rewrite ?length_app; lia).
    rewrite drop_app_le by (unfold Py.len in *; lia).
    apply take_app_le. rewrite length_drop. unfold Py.len in *. lia. }
  assert (Hc : copy self (pointee ++ extra) = copy self pointee)
    by (unfold copy, window; now apply Hgen).
  split; [exact Hc|]. split.
  - unfold __len__. unfold copy in Hc. now rewrite Hc.
  - pose proof (len_nonneg pointee) as Hn.
    assert (Hi : __init__ pointee None None
                 = {| slice_start := 0; slice_stop := Py.len pointee |}).
    { unfold __init__, Py.or_. split_tests; try lia; reflexivity. }
    rewrite Hi. unfold copy, window. cbn [slice_start slice_stop].
    rewrite Hgen by lia. rewrite getslice_in_range by lia.
    rewrite Z.sub_0_r. cbn [Z.to_nat drop]. apply firstn_all2.
    unfold Py.len. lia.
Qed.

Lemma view_fixed_under_growth_witness :
  copy (__init__ buf10 (Some 2) (Some 5)) (buf10 ++ [1; 2; 3])
  = [12; 13; 14]
  /\ __len__ (__init__ buf10 None None) (buf10 ++ [1; 2; 3]) = 10.
Proof.
  destruct (view_fixed_under_growth (__init__ buf10 (Some 2) (Some 5))
              buf10 [1; 2; 3]) as (H1 & _);
    [vm_compute; split; discriminate | vm_compute; discriminate |].
  destruct (view_fixed_under_growth (__init__ buf10 None None)
              buf10 [1; 2; 3]) as (_ & H2 & _);
    [vm_compute; split; discriminate | vm_compute; discriminate |].
  split; [exact H1 | exact H2].
Defined.

(** A write that returns leaves the pointee as long as it was. *)
Lemma setitem_return_length self item val pointee pointee' :
  __setitem__ self item val pointee = (pointee', Return tt) ->
  Py.len pointee' = Py.len pointee.
Proof.
  unfold __setitem__.
  destruct item as [k|a b]; cbv zeta iota beta.
  - match goal with |- context [if ?c then (pointee, _) else _] =>
      destruct c end; [discriminate|].
    destruct val as [v|v]; [|discriminate].
    match goal with |- context [Py.bytearray_setitem ?i ?v ?p] =>
      destruct (Py.bytearray_setitem i v p) as [p' [[]|e']] eqn:Hset end;
      [|discriminate].
    apply bytearray_setitem_same_len in Hset.
    rewrite Hset, Z.eqb_refl. now intros [= <-].
  - match goal with |- context [if ?c then (pointee, _) else _] =>
      destruct c end; [discriminate|].
    destruct val as [v|v]; [discriminate|].
    match goal with |- context [Py.len (Py.getslice pointee ?x ?y) =? _] =>
      destruct (Z.eqb_spec (Py.len (Py.getslice pointee x y)) (Py.len v))
        as [Hlen|Hlen] end; [|discriminate].
    match goal with |- context [Py.bytearray_setslice ?x ?y ?v ?p] =>
      destruct (Py.bytearray_setslice x y v p) as [p' [[]|e']] eqn:Hset end;
      [|discriminate].
    apply (bytearray_setslice_same_len _ _ _ _ _ _ Hlen) in Hset.
    rewrite Hset, Z.eqb_refl. now intros [= <-].
Qed.

(** X18: whatever the view, the key and the value, [__setitem__] never
    changes the length of the pointee, and the RuntimeError of its
    last check ("Bug in bytearray_ptr found!") is never raised. *)
Theorem setitem_keeps_length (self : t) (item : key) (val : value)
    (pointee : list Z) :
  Py.len (fst (__setitem__ self item val pointee)) = Py.len pointee
  /\ snd (__setitem__ self item val pointee) <> Raise bug_found.
Proof.
  destruct (__setitem__ self item val pointee) as [pointee' [[]|e]] eqn:H.
  - split; [|discriminate]. now apply setitem_return_length in H.
  - apply setitem_raise_unchanged in H as [-> He].
    split; [reflexivity|]. cbn. intros [= Heq]. now apply He.
Qed.

(** What a slice of the view reads, for bounds inside the view. *)
Lemma view_getslice (self : t) (q : list Z) (a b : Z) :
  0 <= slice_start self <= slice_stop self ->
  slice_stop self <= Py.len q ->
  0 <= a <= b -> b <= slice_stop self - slice_start self ->
  getslice self (Some a) (Some b) q
  = take (Z.to_nat (b - a)) (drop (Z.to_nat (slice_start self + a)) q).
Proof.
  intros HS HE Hab Hb.
  unfold getslice, Py.getslice_opt. cbv [default from_option id].
  rewrite (getslice_in_range (window self q) a b)
    by (try fold (__len__ self q); rewrite ?len_view; lia).
  unfold window. rewrite getslice_in_range by lia.
  apply list_eq. intros i.
  destruct (decide (i < Z.to_nat (b - a))%nat).
  - rewrite !lookup_take_lt by lia. rewrite !lookup_drop.
    rewrite lookup_take_lt by lia. rewrite lookup_drop. f_equal. lia.
  - now rewrite !lookup_take_ge by lia.
Qed.

(** X19: reads go to the pointee's bytes in [start, stop): on a view
    whose bounds lie inside the pointee, [copy] is the pointee's bytes
    from [start] to [stop], a slice [a:b] of the view with
    [0 <= a <= b <= len(view)] is the pointee's bytes from [start + a]
    to [start + b], and item [i], [0 <= i < len(view)], is the
    pointee's byte at [start + i]. *)
Theorem view_reads (self : t) (q : list Z) :
  0 <= slice_start self <= slice_stop self ->
  slice_stop self <= Py.len q ->
  copy self q
  = take (Z.to_nat (slice_stop self - slice_start self))
      (drop (Z.to_nat (slice_start self)) q)
  /\ (forall a b,
        0 <= a <= b -> b <= __len__ self q ->
        __getitem__ self (Slice (Some a) (Some b)) q
        = (q, Return (Bytes (take (Z.to_nat (b - a))
                               (drop (Z.to_nat (slice_start self + a)) q)))))
  /\ (forall i,
        0 <= i < __len__ self q ->
        exists x,
          q !! Z.to_nat (slice_start self + i) = Some x
          /\ __getitem__ self (Index i) q = (q, Return (Int x))).
Proof.
  intros HS HE. pose proof (len_view self q HS HE) as Hn.
  split; [|split].
  - unfold copy, window. now apply getslice_in_range.
  - intros a b Hab Hb. unfold __getitem__.
    rewrite view_getslice by lia. reflexivity.
  - intros i Hi.
    destruct (lookup_lt_is_Some_2 q (Z.to_nat (slice_start self + i)))
      as [x Hx]; [unfold Py.len in *; lia|].
    exists x. split; [exact Hx|].
    unfold __getitem__.
    rewrite getitem_in_range by (fold (__len__ self q); lia).
    unfold window. rewrite getslice_in_range by lia.
    rewrite lookup_take_lt by lia. rewrite lookup_drop.
    replace (Z.to_nat (slice_start self) + Z.to_nat i)%nat
      with (Z.to_nat (slice_start self + i)) by lia.
    now rewrite Hx.
Qed.

Lemma view_reads_witness :
  __getitem__ (__init__ buf10 (Some 2) (Some 5)) (Slice (Some 1) (Some 3))
    buf10
  = (buf10, Return (Bytes [13; 14]))
  /\ (exists x,
        buf10 !! Z.to_nat (2 + 2) = Some x
        /\ __getitem__ (__init__ buf10 (Some 2) (Some 5)) (Index 2) buf10
           = (buf10, Return (Int x))).
Proof.
  destruct (view_reads (__init__ buf10 (Some 2) (Some 5)) buf10)
    as (_ & Hs & Hi);
    [vm_compute; split; discriminate | vm_compute; discriminate |].
  split.
  - apply (Hs 1 3); vm_compute; (split; discriminate) || discriminate.
  - apply (Hi 2). vm_compute. split; [discriminate | reflexivity].
Defined.

(** A slice write of the right length, with bounds inside the view. *)
Lemma setitem_slice_write (self : t) (pointee v : list Z) (a b : Z) :
  0 <= slice_start self <= slice_stop self ->
  slice_stop self <= Py.len pointee ->
  0 <= a <= b -> a < slice_stop self - slice_start self ->
  b <= slice_stop self - slice_start self ->
  Py.len v = b - a ->
  forallb Py.is_byte v = true ->
  __setitem__ self (Slice (Some a) (Some b)) (Bytes v) pointee
  = (take (Z.to_nat (slice_start self + a)) pointee ++ v
       ++ drop (Z.to_nat (slice_start self + b)) pointee, Return tt).
Proof.
  intros HS HE Hab Ha Hb Hlen Hbytes.
  set (pointee' := take _ pointee ++ v ++ drop _ pointee).
  assert (Hl' : Py.len pointee' = Py.len pointee).
  { unfold pointee', Py.len in *.
    rewrite !length_app, length_take, length_drop. lia. }
  assert (Hset : Py.bytearray_setslice (a + slice_start self)
                   (b + slice_start self) v pointee
                 = (pointee', Return tt)).
  { unfold Py.bytearray_setslice. rewrite Hbytes.
    rewrite setslice_in_range by lia. unfold pointee'.
    now rewrite (Z.add_comm a), (Z.add_comm b). }
  assert (Hrange : Py.len (Py.getslice pointee (a + slice_start self)
                             (b + slice_start self)) = Py.len v).
  { rewrite length_getslice_in_range by lia. lia. }
  unfold __setitem__. cbv zeta iota beta.
  rewrite (len_view self pointee HS HE). rewrite or_some.
  destruct (Z.ltb_spec a 0); [lia|].
  destruct (Z.geb_spec a (slice_stop self - slice_start self)); [lia|].
  assert (Hstop : (if b =? 0 then a else b) = b)
    by (destruct (Z.eqb_spec b 0); lia).
  rewrite Hstop.
  destruct (Z.ltb_spec b 0); [lia|].
  replace (Z.min (b + slice_start self) (slice_stop self))
    with (b + slice_start self) by lia.
  rewrite Hrange, Z.eqb_refl, Hset, Hl', Z.eqb_refl. reflexivity.
Qed.

(** X20: a write to a slice [a:b] of the view with
    [0 <= a <= b <= len(view)], [a < len(view)], with as many bytes as
    the slice is long, succeeds: the pointee's bytes from [start + a]
    to [start + b] become the value, every other byte of the pointee
    is kept, the view is as long as before, and reading the slice back
    gives the value. *)
Theorem setitem_slice_roundtrip (self : t) (pointee v : list Z)
    (a b : Z) :
  0 <= slice_start self <= slice_stop self ->
  slice_stop self <= Py.len pointee ->
  0 <= a <= b -> a < __len__ self pointee -> b <= __len__ self pointee ->
  Py.len v = b - a ->
  forallb Py.is_byte v = true ->
  let pointee' :=
    take (Z.to_nat (slice_start self + a)) pointee ++ v
      ++ drop (Z.to_nat (slice_start self + b)) pointee in
  __setitem__ self (Slice (Some a) (Some b)) (Bytes v) pointee
  = (pointee', Return tt)
  /\ __len__ self pointee' = __len__ self pointee
  /\ __getitem__ self (Slice (Some a) (Some b)) pointee'
     = (pointee', Return (Bytes v)).
Proof.
  intros HS HE Hab Ha Hb Hlen Hbytes pointee'.
  rewrite (len_view self pointee HS HE) in Ha, Hb.
  assert (Hl' : Py.len pointee' = Py.len pointee).
  { unfold pointee', Py.len in *.
    rewrite !length_app, length_take, length_drop. lia. }
  split; [now apply setitem_slice_write|]. split.
  - rewrite !len_view by lia. reflexivity.
  - unfold __getitem__. rewrite view_getslice by lia.
    unfold pointee'.
    rewrite drop_app_length'
      by (rewrite length_take; unfold Py.len in *; lia).
    rewrite take_app_length' by (unfold Py.len in *; lia).
    reflexivity.
Qed.

Lemma setitem_slice_roundtrip_witness :
  __setitem__ (__init__ buf10 (Some 2) (Some 7)) (Slice (Some 1) (Some 3))
    (Bytes [1; 2]) buf10
  = ([10; 11; 12; 1; 2; 15; 16; 17; 18; 19], Return tt).
Proof.
  destruct (setitem_slice_roundtrip (__init__ buf10 (Some 2) (Some 7))
              buf10 [1; 2] 1 3) as (H & _);
    [vm_compute; split; discriminate | vm_compute; discriminate
    | lia | vm_compute; reflexivity | vm_compute; discriminate
    | reflexivity | reflexivity |].
  exact H.
Defined.

(** X21: a write of a byte to item [k] of the view, with
    [-len(view) <= k < len(view)], succeeds and replaces one byte of
    the pointee, the one at [start + k] (at [start + len(view) + k] for
    a negative [k]), which lies inside the view; reading item [k] back
    gives the byte. *)
Theorem setitem_index_write (self : t) (pointee : list Z) (k v : Z) :
  0 <= slice_start self <= slice_stop self ->
  slice_stop self <= Py.len pointee ->
  - __len__ self pointee <= k < __len__ self pointee ->
  Py.is_byte v = true ->
  let pos :=
    slice_start self + (if k <? 0 then k + __len__ self pointee else k) in
  let pointee' := <[Z.to_nat pos := v]> pointee in
  __setitem__ self (Index k) (Int v) pointee = (pointee', Return tt)
  /\ slice_start self <= pos < slice_stop self
  /\ __getitem__ self (Index k) pointee' = (pointee', Return (Int v)).
Proof.
  intros HS HE Hk Hv.
  pose proof (len_view self pointee HS HE) as Hn.
  set (n := __len__ self pointee) in *.
  set (k' := if k <? 0 then k + n else k).
  assert (Hk' : 0 <= k' < n) by (unfold k'; destruct (Z.ltb_spec k 0); lia).
  intros pos pointee'. fold k' in pos.
  assert (Hlen' : Py.len pointee' = Py.len pointee)
    by (unfold pointee', Py.len; now rewrite length_insert).
  split; [|split; [unfold pos; lia|]].
  - unfold __setitem__. cbv zeta iota beta. fold n. fold k'.
    rewrite or_some.
    destruct (Z.ltb_spec k' 0); [lia|].
    destruct (Z.geb_spec k' n); [lia|].
    unfold Py.bytearray_setitem. rewrite Hv. cbn [negb].
    destruct (Z.ltb_spec (k' + slice_start self) 0); [lia|].
    destruct (Z.leb_spec 0 (k' + slice_start self)); [|lia].
    destruct (Z.ltb_spec (k' + slice_start self) (Py.len pointee)); [|lia].
    cbn [andb]. rewrite (Z.add_comm k'). fold pos. fold pointee'.
    now rewrite Hlen', Z.eqb_refl.
  - unfold __getitem__, Py.getitem.
    fold (__len__ self pointee').
    rewrite (len_view self pointee') by lia. rewrite <- Hn.
    fold k'.
    destruct (Z.leb_spec 0 k'); [|lia].
    destruct (Z.ltb_spec k' n); [|lia]. cbn [andb].
    unfold window. rewrite getslice_in_range by lia.
    rewrite lookup_take_lt by lia. rewrite lookup_drop.
    replace (Z.to_nat (slice_start self) + Z.to_nat k')%nat
      with (Z.to_nat pos) by (unfold pos; lia).
    unfold pointee'. rewrite list_lookup_insert_eq; [reflexivity|].
    unfold Py.len in *. unfold pos. lia.
Qed.

Lemma setitem_index_write_witness :
  __setitem__ (__init__ buf10 (Some 2) (Some 5)) (Index (- 1)) (Int 7) buf10
  = ([10; 11; 12; 13; 7; 15; 16; 17; 18; 19], Return tt).
Proof.
  destruct (setitem_index_write (__init__ buf10 (Some 2) (Some 5)) buf10
              (- 1) 7) as (H & _);
    [vm_compute; split; discriminate | vm_compute; discriminate
    | vm_compute; split; [discriminate | reflexivity] | reflexivity |].
  exact H.
Defined.

(** X22: the edges of a write to item [k] of a view of length [n]
    whose bounds lie inside the pointee: [k >= n] raises IndexError; a
    value outside [range(256)] raises ValueError and changes nothing;
    and an index in [-2n, -n), for which a bytearray raises IndexError,
    is accepted: the length of the view is added twice and the byte at
    [start + k + 2n] is replaced. *)
Theorem setitem_index_edges (self : t) (pointee : list Z) (k v : Z) :
  0 <= slice_start self <= slice_stop self ->
  slice_stop self <= Py.len pointee ->
  let n := __len__ self pointee in
  (n <= k ->
   forall val, __setitem__ self (Index k) val pointee
               = (pointee, Raise out_of_range))
  /\ (- n <= k < n -> Py.is_byte v = false ->
      __setitem__ self (Index k) (Int v) pointee
      = (pointee, Raise (ValueError "byte must be in range(0, 256)")))
  /\ (- 2 * n <= k < - n -> Py.is_byte v = true ->
      __setitem__ self (Index k) (Int v) pointee
      = (<[Z.to_nat (slice_start self + k + 2 * n) := v]> pointee,
         Return tt)).
Proof.
  intros HS HE n.
  pose proof (len_view self pointee HS HE) as Hn. fold n in Hn.
  pose proof (len_nonneg (window self pointee)) as Hpos.
  fold (__len__ self pointee) in Hpos. fold n in Hpos.
  split; [|split].
  - intros Hk val. unfold __setitem__. cbv zeta iota beta. fold n.
    destruct (Z.ltb_spec k 0); [lia|]. rewrite or_some.
    destruct (Z.ltb_spec k 0); [lia|].
    destruct (Z.geb_spec k n); [reflexivity|lia].
  - intros Hk Hv. unfold __setitem__. cbv zeta iota beta. fold n.
    set (k' := if k <? 0 then k + n else k).
    assert (Hk' : 0 <= k' < n)
      by (unfold k'; destruct (Z.ltb_spec k 0); lia).
    rewrite or_some.
    destruct (Z.ltb_spec k' 0); [lia|].
    destruct (Z.geb_spec k' n); [lia|].
    unfold Py.bytearray_setitem. rewrite Hv. reflexivity.
  - intros Hk Hv. unfold __setitem__. cbv zeta iota beta. fold n.
    destruct (Z.ltb_spec k 0); [|lia]. rewrite or_some.
    destruct (Z.ltb_spec (k + n) 0); [|lia].
    destruct (Z.geb_spec (k + n + n) n); [lia|].
    unfold Py.bytearray_setitem. rewrite Hv. cbn [negb].
    destruct (Z.ltb_spec (k + n + n + slice_start self) 0); [lia|].
    destruct (Z.leb_spec 0 (k + n + n + slice_start self)); [|lia].
    destruct (Z.ltb_spec (k + n + n + slice_start self) (Py.len pointee));
      [|lia].
    cbn [andb].
    replace (k + n + n + slice_start self)
      with (slice_start self + k + 2 * n) by lia.
    unfold Py.len at 1. rewrite length_insert. fold (Py.len pointee).
    now rewrite Z.eqb_refl.
Qed.

Lemma setitem_index_edges_witness :
  __setitem__ (__init__ buf10 (Some 2) (Some 5)) (Index 3) (Int 7) buf10
  = (buf10, Raise out_of_range)
  /\ __setitem__ (__init__ buf10 (Some 2) (Some 5)) (Index 0) (Int 256)
       buf10
     = (buf10, Raise (ValueError "byte must be in range(0, 256)"))
  /\ __setitem__ (__init__ buf10 (Some 2) (Some 5)) (Index (- 4)) (Int 7)
       buf10
     = ([10; 11; 12; 13; 7; 15; 16; 17; 18; 19], Return tt).
Proof.
  destruct (setitem_index_edges (__init__ buf10 (Some 2) (Some 5)) buf10
              3 7) as (H1 & _);
    [vm_compute; split; discriminate | vm_compute; discriminate |].
  destruct (setitem_index_edges (__init__ buf10 (Some 2) (Some 5)) buf10
              0 256) as (_ & H2 & _);
    [vm_compute; split; discriminate | vm_compute; discriminate |].
  destruct (setitem_index_edges (__init__ buf10 (Some 2) (Some 5)) buf10
              (- 4) 7) as (_ & _ & H3);
    [vm_compute; split; discriminate | vm_compute; discriminate |].
  split; [apply H1; vm_compute; discriminate|].
  split; [apply H2; [vm_compute; split; [discriminate|reflexivity]
                    | reflexivity]|].
  apply H3; [vm_compute; split; [discriminate|reflexivity] | reflexivity].
Defined.

End BoundedViewMore.

(** ** A structure over a view *)

Section StructOverView.

Import Misc.

(** X23: a [StructNoPointers] whose buffer is a view as long as the
    signature writes its field [i] into the pointee at the view's start
    plus the field's offset: a value as wide as the field (which is
    not empty) replaces exactly those bytes of the pointee and the
    write returns. *)
Theorem set_field_through_view_writes (SIGNATURE : list Z) (i : nat)
    (w : Z) (data : list Z) (view : bytearray_ptr.t) (pointee : list Z) :
  Forall (fun w => 0 <= w) SIGNATURE ->
  SIGNATURE !! i = Some w ->
  0 < w ->
  0 <= bytearray_ptr.slice_start view ->
  bytearray_ptr.slice_stop view <= Py.len pointee ->
  bytearray_ptr.slice_stop view - bytearray_ptr.slice_start view
  = Py.sum SIGNATURE ->
  Py.len data = w ->
  forallb Py.is_byte data = true ->
  let at_ := bytearray_ptr.slice_start view + Py.sum (take i SIGNATURE) in
  set_field_through_view SIGNATURE (Z.of_nat i) data view pointee
  = (take (Z.to_nat at_) pointee ++ data
       ++ drop (Z.to_nat (at_ + w)) pointee, Return tt).
Proof.
  intros Hpos Hw Hw0 HS HE Hsize Hlen Hbytes at_.
  destruct (field_range_bounds _ _ _ Hpos Hw) as (Ha & _ & Hend).
  unfold set_field_through_view.
  rewrite (get_slicers_in_range _ _ _ Hw).
  rewrite setitem_slice_write by (assumption || lia).
  unfold at_. now rewrite Z.add_assoc.
Qed.

Lemma set_field_through_view_writes_witness :
  set_field_through_view [4; 2] 1 [7; 8]
    (bytearray_ptr.__init__ bytearray_ptr.buf10 (Some 3) (Some 9))
    bytearray_ptr.buf10
  = ([10; 11; 12; 13; 14; 15; 16; 7; 8; 19], Return tt).
Proof.
  apply (set_field_through_view_writes [4; 2] 1 2 [7; 8]
           (bytearray_ptr.__init__ bytearray_ptr.buf10 (Some 3) (Some 9))
           bytearray_ptr.buf10);
    [repeat constructor; lia | reflexivity | lia
    | vm_compute; discriminate | vm_compute; discriminate
    | reflexivity | reflexivity | reflexivity].
Defined.

End StructOverView.

(** ** A fresh structure with pointers *)

Section FreshStruct.

Import Misc.StructWithPointers.

(** X24: [StructWithPointers(var_count)] has [var_count] slots (none
    for a count of 0 or less), each an empty [bytearray]; its raw bytes
    and its hex dump are empty; the [bytearray] property returns the
    empty sequence when there is no slot and raises TypeError as soon
    as there is one. *)
Theorem fresh_struct (var_count : Z) :
  length (bytearrays (__init__ var_count)) = Z.to_nat var_count
  /\ Forall (fun a => a = PyByteArray []) (bytearrays (__init__ var_count))
  /\ __bytes__ (__init__ var_count) = []
  /\ __str__ (__init__ var_count) = EmptyString
  /\ bytearray (__init__ var_count)
     = (if 0 <? var_count then Raise unhashable else Return []).
Proof.
  assert (Hraw : __bytes__ (__init__ var_count) = []).
  { unfold __bytes__, __init__. cbn [bytearrays].
    induction (Z.to_nat var_count) as [|k IH]; [reflexivity|exact IH]. }
  split; [apply length_replicate|].
  split; [apply Forall_replicate; reflexivity|].
  split; [exact Hraw|].
  split; [unfold __str__; now rewrite Hraw|].
  unfold bytearray, __init__. cbn [bytearrays pointers].
  destruct (Z.ltb_spec 0 var_count) as [Hpos|Hneg].
  - destruct (Z.to_nat var_count) as [|k] eqn:E; [lia|reflexivity].
  - replace (Z.to_nat var_count) with 0%nat by lia. reflexivity.
Qed.

End FreshStruct.
